(** * gcpbox / cloudtasks: the Cloud Tasks convenience layer of service.go

    A shallow embedding of [cloudtasks/service.go]: the queue identifier, the
    primitive [CreateTask], the typed creations [CreateJsonPostTask] and
    [CreateGetTask], and the two fan-out helpers.  The remote provider is a
    field of the service, as in the Go struct; every remote call is threaded
    through an explicit world state that also keeps the list of requests that
    were sent. *)

From Stdlib Require Import Init.Byte ZArith Ascii String.
From stdpp Require Import base option list strings pretty gmap.

Local Open Scope string_scope.
Local Open Scope list_scope.

(** ** Go library functions used by service.go *)

(** Fixed-width conversions, written out. *)
Definition wrap64 (z : Z) : Z := ((z + 2 ^ 63) mod 2 ^ 64 - 2 ^ 63)%Z.
Definition wrap32 (z : Z) : Z := ((z + 2 ^ 31) mod 2 ^ 32 - 2 ^ 31)%Z.

Module fmt.

(** The tail that [fmt.Sprintf] prints for operands no verb consumed. *)
Fixpoint extra (args : list string) : string :=
  match args with
  | [] => ""
  | [a] => "string=" +:+ a
  | a :: args' => "string=" +:+ a +:+ ", " +:+ extra args'
  end.

(** [fmt.Sprintf] restricted to what service.go asks of it: the verb [%s]
    applied to string operands.  A string operand is copied as it is; a verb
    without operand prints [%!s(MISSING)]. *)
Fixpoint Sprintf (format : string) (args : list string) : string :=
  match format with
  | EmptyString =>
      match args with
      | [] => ""
      | _ :: _ => "%!(EXTRA " +:+ extra args +:+ ")"
      end
  | String "%"%char (String "s"%char rest) =>
      match args with
      | a :: args' => a +:+ Sprintf rest args'
      | [] => "%!s(MISSING)" +:+ Sprintf rest []
      end
  | String c rest => String c (Sprintf rest args)
  end.

End fmt.

Module time.

(** [time.Time] as the two quantities its methods read: the seconds elapsed
    since January 1, year 1 00:00:00 UTC and the nanoseconds within that
    second. *)
Record Time := mkTime { sec : Z; nsec : Z }.

Definition unixToInternal : Z := 62135596800.
Definition internalToUnix : Z := - unixToInternal.

Definition IsZero (t : Time) : bool := (sec t =? 0)%Z && (nsec t =? 0)%Z.
Definition Unix (t : Time) : Z := wrap64 (sec t + internalToUnix).
Definition Nanosecond (t : Time) : Z := nsec t.

(** The zero value [time.Time{}]. *)
Definition zero : Time := mkTime 0 0.

(** [time.Duration]: a count of nanoseconds (int64). *)
Definition Duration : Type := Z.
Definition Minute : Duration := (60 * 1000000000)%Z.

End time.

Module codes.
(** [google.golang.org/grpc/codes] *)
Inductive Code :=
| OK | Canceled | Unknown | InvalidArgument | DeadlineExceeded | NotFound
| AlreadyExists | PermissionDenied | ResourceExhausted | FailedPrecondition
| Aborted | OutOfRange | Unimplemented | Internal | Unavailable | DataLoss
| Unauthenticated.

Definition eqb (a b : Code) : bool :=
  match a, b with
  | OK, OK | Canceled, Canceled | Unknown, Unknown
  | InvalidArgument, InvalidArgument | DeadlineExceeded, DeadlineExceeded
  | NotFound, NotFound | AlreadyExists, AlreadyExists
  | PermissionDenied, PermissionDenied | ResourceExhausted, ResourceExhausted
  | FailedPrecondition, FailedPrecondition | Aborted, Aborted
  | OutOfRange, OutOfRange | Unimplemented, Unimplemented
  | Internal, Internal | Unavailable, Unavailable | DataLoss, DataLoss
  | Unauthenticated, Unauthenticated => true
  | _, _ => false
  end.
End codes.

(** Errors made outside this package: a gRPC status error, or any other error
    value (transport, [json], [ptypes]).  The text of such an error is kept
    without the rendering of its operands. *)
Inductive foreign :=
| StatusError (c : codes.Code) (msg : string)
| PlainError (msg : string).

Module status.
(** [status.FromError]: the code of a status error, and whether the error
    was one. *)
Definition FromError (err : foreign) : codes.Code * bool :=
  match err with
  | StatusError c _ => (c, true)
  | PlainError _ => (codes.Unknown, false)
  end.
End status.

Module ptypes.

Record Timestamp := mkTimestamp { Seconds : Z; Nanos : Z }.
Record Duration := mkDuration { dSeconds : Z; dNanos : Z }.

(** 0001-01-01T00:00:00Z and 10000-01-01T00:00:00Z in Unix seconds. *)
Definition minValidSeconds : Z := -62135596800.
Definition maxValidSeconds : Z := 253402300800.

Definition validateTimestamp (ts : Timestamp) : option foreign :=
  if (Seconds ts <? minValidSeconds)%Z then
    Some (PlainError "timestamp: before 0001-01-01")
  else if (maxValidSeconds <=? Seconds ts)%Z then
    Some (PlainError "timestamp: after 10000-01-01")
  else if (Nanos ts <? 0)%Z || (1000000000 <=? Nanos ts)%Z then
    Some (PlainError "timestamp: nanos not in range [0, 1e9)")
  else None.

(** [ptypes.TimestampProto]: [inl] is [(ts, nil)], [inr] is [(nil, err)]. *)
Definition TimestampProto (t : time.Time) : Timestamp + foreign :=
  let ts := mkTimestamp (time.Unix t) (wrap32 (time.Nanosecond t)) in
  match validateTimestamp ts with
  | Some err => inr err
  | None => inl ts
  end.

(** [ptypes.DurationProto]; Go's [/] truncates towards zero. *)
Definition DurationProto (d : time.Duration) : Duration :=
  let nanos := d in
  let secs := (nanos ÷ 1000000000)%Z in
  let nanos := (nanos - secs * 1000000000)%Z in
  mkDuration secs (wrap32 nanos).

End ptypes.

(** ** The provider's messages (taskspb) *)

Module taskspb.

Inductive HttpMethod :=
| HttpMethod_HTTP_METHOD_UNSPECIFIED
| HttpMethod_POST | HttpMethod_GET | HttpMethod_HEAD | HttpMethod_PUT
| HttpMethod_DELETE | HttpMethod_PATCH | HttpMethod_OPTIONS.

Module OidcToken.
Record t := mk { ServiceAccountEmail : string; Audience : string }.
End OidcToken.

Module OAuthToken.
Record t := mk { ServiceAccountEmail : string; Scope : string }.
End OAuthToken.

(** The oneof [authorization_header]. *)
Inductive isHttpRequest_AuthorizationHeader :=
| HttpRequest_OauthToken (OauthToken : OAuthToken.t)
| HttpRequest_OidcToken (OidcToken : OidcToken.t).

Module HttpRequest.
Record t := mk {
  Url : string;
  HttpMethod : HttpMethod;
  Headers : gmap string string;
  Body : list byte;
  AuthorizationHeader : option isHttpRequest_AuthorizationHeader
}.
End HttpRequest.

(** The oneof [message_type], as far as service.go fills it. *)
Inductive isTask_MessageType :=
| Task_HttpRequest (HttpRequest : HttpRequest.t).

Module Task.
(** An unset string field is the empty string; an unset message field is
    [None]. *)
Record t := mk {
  Name : string;
  MessageType : option isTask_MessageType;
  ScheduleTime : option ptypes.Timestamp;
  DispatchDeadline : option ptypes.Duration
}.
End Task.

Module CreateTaskRequest.
Record t := mk { Parent : string; Task : Task.t }.
End CreateTaskRequest.

End taskspb.

(** ** Queue *)

Module Queue.
Record t := mk { ProjectID : string; Region : string; Name : string }.

Definition Parent (q : t) : string :=
  fmt.Sprintf "projects/%s/locations/%s/queues/%s" [ProjectID q; Region q; Name q].

(** The text [%+v] prints for a [*Queue]. *)
Definition show (q : t) : string :=
  "&{ProjectID:" +:+ ProjectID q +:+ " Region:" +:+ Region q
    +:+ " Name:" +:+ Name q +:+ "}".
End Queue.

(** ** The error taxonomy *)

(** Values stored under a key of an error's context
    ([map[string]interface{}]): service.go stores an index, a string or a
    scheduled time. *)
Inductive any :=
| AnyInt (n : Z)
| AnyString (s : string)
| AnyTime (t : time.Time).

(** Modelled from the spec: the codes of this package's errors, declared
    outside service.go.  "Code is one of a small closed set (InvalidArgument,
    AlreadyExists, CreateMultiTaskFailure ...)". *)
Inductive ErrCode :=
| InvalidArgument
| AlreadyExists
| CreateMultiTaskFailure.

(** [a == b] on codes. *)
Definition ErrCode_eqb (a b : ErrCode) : bool :=
  match a, b with
  | InvalidArgument, InvalidArgument
  | AlreadyExists, AlreadyExists
  | CreateMultiTaskFailure, CreateMultiTaskFailure => true
  | _, _ => false
  end.

(** Modelled from the spec: the struct [Error] is declared outside
    service.go; "Error: {Code, Message, KV context, wrapped cause}".

    It is declared together with Go's [error] values as service.go meets
    them: a foreign error, an [*Error] of this package, or the wrapper that
    [xerrors.Errorf] builds for a format ending in [%w] (its format and
    rendered operands are kept apart from the wrapped cause). *)
Inductive error :=
| Foreign (err : foreign)
| AppError (e : Error)
| WrapError (format : string) (operands : list string) (cause : error)
with Error :=
| mkError (Code : ErrCode) (Message : string) (KV : gmap string any) (err : error).

Module Err.
Definition Code (e : Error) : ErrCode := let 'mkError c _ _ _ := e in c.
Definition Message (e : Error) : string := let 'mkError _ m _ _ := e in m.
Definition KV (e : Error) : gmap string any := let 'mkError _ _ kv _ := e in kv.
Definition err (e : Error) : error := let 'mkError _ _ _ c := e in c.

(** [appErr.KV[k] = v] *)
Definition set_KV (k : string) (v : any) (e : Error) : Error :=
  mkError (Code e) (Message e) (<[k := v]> (KV e)) (err e).
End Err.

(** Modelled from the spec: [ErrAlreadyExists], the package-level value whose
    [Code] the fan-out compares against. *)
Definition ErrAlreadyExists_Code : ErrCode := AlreadyExists.

(** Modelled from the spec: the constructor of an InvalidArgument error;
    "malformed local input (e.g., unconvertible timestamp); includes the
    offending value in context". *)
Definition NewErrInvalidArgument (message : string) (kv : gmap string any) (err : error) : Error :=
  mkError InvalidArgument message kv err.

(** Modelled from the spec: the constructor of an AlreadyExists error;
    "remote rejected due to duplicate task name; includes the resolved name
    ... in context". *)
Definition NewErrAlreadyExists (message : string) (kv : gmap string any) (err : error) : Error :=
  mkError AlreadyExists message kv err.

(** Modelled from the spec: the constructor of a CreateMultiTaskFailure error;
    "wraps any other per-item failure during fan-out, with index and
    identifying fields (name/URI) attached". *)
Definition NewErrCreateMultiTask (message : string) (kv : gmap string any) (err : error) : Error :=
  mkError CreateMultiTaskFailure message kv err.

Module xerrors.
(** [xerrors.As(err, &appErr)] for a target of type [*Error]: the first
    [*Error] met on the chain of causes.  A foreign error has no cause; the
    wrapper of [Errorf] unwraps to the error it was given. *)
Fixpoint As (err : error) : option Error :=
  match err with
  | Foreign _ => None
  | AppError e => Some e
  | WrapError _ _ cause => As cause
  end.
End xerrors.

Module MultiError.
(** Modelled from the spec: [MultiError], declared outside service.go; "an
    ordered collection of per-item failures accumulated under concurrent
    writes; exposed as a single error only if non-empty". *)
Record t := mk { Errors : list Error }.

(** Modelled from the spec: [MultiError{}], the empty aggregate. *)
Definition empty : t := mk [].

(** Modelled from the spec: [Append] adds one failure at the end, as one
    indivisible step ("under mutual exclusion"). *)
Definition Append (e : Error) (m : t) : t := mk (Errors m ++ [e]).

(** Modelled from the spec: [ErrorOrNil]; [None] is the nil error. *)
Definition ErrorOrNil (m : t) : option t :=
  match Errors m with
  | [] => None
  | _ :: _ => Some m
  end.
End MultiError.

(** ** Options of a creation *)

(** Modelled from the spec: the options struct, declared outside service.go,
    which reads its field [ignoreAlreadyExists]. *)
Record createTaskOptions := { ignoreAlreadyExists : bool }.

(** Modelled from the spec: the option type is declared outside service.go;
    "the only defined option toggles ignore already-exists as success".  A
    caller outside the package cannot build any other option, the options
    struct being unexported. *)
Inductive CreateTaskOptions :=
| WithIgnoreAlreadyExists.

#[export] Instance CreateTaskOptions_eq_dec : EqDecision CreateTaskOptions.
Proof. solve_decision. Defined.

(** Modelled from the spec: what calling the option [o(&opt)] does; it
    switches the flag on. *)
Definition apply_option (o : CreateTaskOptions) (opt : createTaskOptions) : createTaskOptions :=
  match o with
  | WithIgnoreAlreadyExists => {| ignoreAlreadyExists := true |}
  end.

(** ** Task descriptions *)

Module json.
(** A value of type [interface{}] handed to [json.Marshal] or printed with
    [%+v], given by what those two produce on it. *)
Record Value := mkValue { encoding : list byte + foreign; show : string }.

(** [json.Marshal]: [inl] is [(bytes, nil)], [inr] is [(nil, err)]. *)
Definition Marshal (v : Value) : list byte + foreign := encoding v.
End json.

Module JsonPostTask.
Record t := mk {
  Audience : string;
  RelativeURI : string;
  ScheduledTime : time.Time;
  Deadline : time.Duration;
  Body : json.Value;
  Name : string
}.
End JsonPostTask.

Module GetTask.
Record t := mk {
  Audience : string;
  Headers : gmap string string;
  RelativeURI : string;
  ScheduledTime : time.Time;
  Deadline : time.Duration;
  Name : string
}.
End GetTask.

(** ** The service *)

Import taskspb.

Section Service.

(** The state of the remote task-queue service. *)
Context {W : Type}.

(** What the program can observe of the outside: the provider's state and
    the create requests sent to it so far, oldest first. *)
Record World := mkWorld { server : W; sent : list CreateTaskRequest.t }.

(** [*cloudtasks.Client], by its one method used here: [CreateTask] answers
    a request with [(task, nil)] ([inl]) or [(nil, err)] ([inr]) and moves
    the provider's state. *)
Definition Client : Type :=
  CreateTaskRequest.t → W → (Task.t + foreign) * W.

Record Service := mkService {
  taskClient : Client;
  serviceAccountEmail : string
}.

Definition NewService (taskClient : Client) (serviceAccountEmail : string)
  : Service + error :=
  inl (mkService taskClient serviceAccountEmail).

(** Computations that may call the provider. *)
Definition M (A : Type) : Type := World → A * World.

#[export] Instance M_ret : MRet M := λ A x w, (x, w).
#[export] Instance M_bind : MBind M :=
  λ A B f m w, let '(a, w') := m w in f a w'.

(** [s.taskClient.CreateTask(ctx, taskReq)] *)
Definition remote_CreateTask (c : Client) (taskReq : CreateTaskRequest.t)
  : M (Task.t + foreign) :=
  λ w, let '(r, srv) := c taskReq (server w) in
       (r, mkWorld srv (sent w ++ [taskReq])).

Definition with_Name (n : string) (t : Task.t) : Task.t :=
  Task.mk n (Task.MessageType t) (Task.ScheduleTime t) (Task.DispatchDeadline t).
Definition with_ScheduleTime (ts : ptypes.Timestamp) (t : Task.t) : Task.t :=
  Task.mk (Task.Name t) (Task.MessageType t) (Some ts) (Task.DispatchDeadline t).
Definition with_DispatchDeadline (d : ptypes.Duration) (t : Task.t) : Task.t :=
  Task.mk (Task.Name t) (Task.MessageType t) (Task.ScheduleTime t) (Some d).

(** [CreateTask]: [inl task] is the return [(task, nil)], [inr err] the
    return [(nil, err)]. *)
Definition CreateTask (s : Service) (queue : Queue.t) (taskName : string)
    (req : HttpRequest.t) (scheduledTime : time.Time)
    (deadline : time.Duration) (ops : list CreateTaskOptions)
  : M (Task.t + error) :=
  let opt := foldl (λ opt o, apply_option o opt)
                   {| ignoreAlreadyExists := false |} ops in
  let task := Task.mk "" (Some (Task_HttpRequest req)) None None in
  let task :=
    if bool_decide (0 < String.length taskName)%nat then
      with_Name
        (fmt.Sprintf "projects/%s/locations/%s/queues/%s/tasks/%s"
           [Queue.ProjectID queue; Queue.Region queue; Queue.Name queue; taskName])
        task
    else task in
  let stamped :=
    if negb (time.IsZero scheduledTime) then
      match ptypes.TimestampProto scheduledTime with
      | inr err =>
          inr (AppError (NewErrInvalidArgument "invalid ScheduleTime"
                 {[ "ScheduledTime" := AnyTime scheduledTime ]} (Foreign err)))
      | inl stpb => inl (with_ScheduleTime stpb task)
      end
    else inl task in
  match stamped with
  | inr e => mret (inr e)
  | inl task =>
      let task :=
        if bool_decide (deadline ≠ 0%Z) then
          with_DispatchDeadline (ptypes.DurationProto deadline) task
        else task in
      let taskReq := CreateTaskRequest.mk (Queue.Parent queue) task in
      r ← remote_CreateTask (taskClient s) taskReq;
      match r with
      | inr err =>
          let '(sts, ok) := status.FromError err in
          if ok then
            if codes.eqb sts codes.AlreadyExists then
              if ignoreAlreadyExists opt then
                mret (inl (CreateTaskRequest.Task taskReq))
              else
                mret (inr (AppError (NewErrAlreadyExists
                  (fmt.Sprintf "%s is already exists."
                     [Task.Name (CreateTaskRequest.Task taskReq)])
                  {[ "taskName" :=
                       AnyString (Task.Name (CreateTaskRequest.Task taskReq)) ]}
                  (Foreign err))))
            else mret (inr (Foreign err))
          else mret (inr (Foreign err))
      | inl task => mret (inl task)
      end
  end.

(** [CreateJsonPostTask]: the pair is Go's [(string, error)], [None] the nil
    error. *)
Definition CreateJsonPostTask (s : Service) (queue : Queue.t)
    (task : JsonPostTask.t) (ops : list CreateTaskOptions)
  : M (string * option error) :=
  match json.Marshal (JsonPostTask.Body task) with
  | inr err =>
      mret ("", Some (WrapError "failed json.Marshal(). body=%+v : %w"
                        [json.show (JsonPostTask.Body task)] (Foreign err)))
  | inl body =>
      r ← CreateTask s queue (JsonPostTask.Name task)
            (HttpRequest.mk
               (JsonPostTask.RelativeURI task)
               HttpMethod_POST
               {[ "Content-Type" := "application/json" ]}
               body
               (Some (HttpRequest_OidcToken
                        (OidcToken.mk (serviceAccountEmail s)
                                      (JsonPostTask.Audience task)))))
            (JsonPostTask.ScheduledTime task) (JsonPostTask.Deadline task) ops;
      match r with
      | inr err =>
          mret ("", Some (WrapError
                   "failed CreateJsonPostTask(). queue=%+v, body=%+v : %w"
                   [Queue.show queue; json.show (JsonPostTask.Body task)] err))
      | inl got => mret (Task.Name got, None)
      end
  end.

Definition CreateGetTask (s : Service) (queue : Queue.t)
    (task : GetTask.t) (ops : list CreateTaskOptions)
  : M (string * option error) :=
  r ← CreateTask s queue (GetTask.Name task)
        (HttpRequest.mk
           (GetTask.RelativeURI task)
           HttpMethod_GET
           (GetTask.Headers task)
           []
           (Some (HttpRequest_OidcToken
                    (OidcToken.mk (serviceAccountEmail s)
                                  (GetTask.Audience task)))))
        (GetTask.ScheduledTime task) (GetTask.Deadline task) ops;
  match r with
  | inr err =>
      mret ("", Some (WrapError
               "failed CreateJsonPostTask(). queue=%+v, url=%s : %w"
               [Queue.show queue; GetTask.RelativeURI task] err))
  | inl got => mret (Task.Name got, None)
  end.

End Service.

(** An error is classified AlreadyExists when the first [*Error] on its chain
    of causes carries that code: the test the fan-out makes. *)
Definition classified_AlreadyExists (err : error) : Prop :=
  ∃ appErr, xerrors.As err = Some appErr ∧ Err.Code appErr = AlreadyExists.

(** ** Fan-out

    [CreateJsonPostTaskMulti] and [CreateGetTaskMulti] have the same body up
    to the single-create they call, the message of the generic failure and
    the type of the task; the body is embedded once, over those.

    One goroutine is started per input item with the parameters [(i, task)].
    A goroutine takes two steps: it calls the single-create, which reaches the
    provider, and it records what came back (an append to the shared aggregate,
    or a write to its own slot of the results).  An execution is a sequence of
    such steps chosen by the scheduler; [wg.Wait()] returns once every
    goroutine has taken both of its steps.  The write [results[i] = tn]
    touches a slot no other goroutine reads or writes, so taking it together
    with the append that precedes it loses no behaviour. *)

Section FanOut.

Context {W T : Type}.

(** The single-create of the variant, applied to the service, the queue and
    the options; the message of [NewErrCreateMultiTask]; the fields [Name]
    and [RelativeURI] of the task type. *)
Variable create : T → @M W (string * option error).
Variable message : string.
Variable task_Name task_RelativeURI : T → string.

(** Where a goroutine stands, with its local variables [tn] and [err] once
    the single-create has returned. *)
Inductive progress :=
| Spawned
| Returned (tn : string) (err : option error)
| Done (tn : string) (err : option error).

(** A goroutine: the parameters it was started with, and its progress. *)
Record goroutine := mkGoroutine { g_i : nat; g_task : T; g_at : progress }.

(** The variables the goroutines share, and the goroutines. *)
Record fanout := mkFanout {
  world : @World W;
  results : list string;
  merr : MultiError.t;
  routines : list goroutine
}.

(** The goroutine's body after [tn, err := s.Create...(...)]. *)
Definition record_outcome (i : nat) (task : T) (tn : string)
    (err : option error) (results : list string) (merr : MultiError.t)
  : list string * MultiError.t :=
  match err with
  | Some err =>
      let generic :=
        (<[i := tn]> results,
         MultiError.Append
           (NewErrCreateMultiTask message
              {[ "index" := AnyInt (Z.of_nat i);
                 "taskName" := AnyString (task_Name task);
                 "URI" := AnyString (task_RelativeURI task) ]} err)
           merr) in
      match xerrors.As err with
      | Some appErr =>
          if ErrCode_eqb (Err.Code appErr) ErrAlreadyExists_Code then
            (results,
             MultiError.Append
               (Err.set_KV "index" (AnyInt (Z.of_nat i)) appErr) merr)
          else generic
      | None => generic
      end
  | None => (<[i := tn]> results, merr)
  end.

Inductive event :=
| Call (i : nat)      (* goroutine i runs its single-create *)
| Record_ (i : nat).  (* goroutine i records the outcome and ends *)

(** One step of the execution; [None] when the goroutine named by the event
    cannot take that step now. *)
Definition step (ev : event) (f : fanout) : option fanout :=
  match ev with
  | Call i =>
      match routines f !! i with
      | Some (mkGoroutine gi task Spawned) =>
          let '((tn, err), w') := create task (world f) in
          Some (mkFanout w' (results f) (merr f)
                  (<[i := mkGoroutine gi task (Returned tn err)]> (routines f)))
      | _ => None
      end
  | Record_ i =>
      match routines f !! i with
      | Some (mkGoroutine gi task (Returned tn err)) =>
          let '(results', merr') :=
            record_outcome gi task tn err (results f) (merr f) in
          Some (mkFanout (world f) results' merr'
                  (<[i := mkGoroutine gi task (Done tn err)]> (routines f)))
      | _ => None
      end
  end.

Fixpoint run (sched : list event) (f : fanout) : option fanout :=
  match sched with
  | [] => Some f
  | ev :: sched' => f' ← step ev f; run sched' f'
  end.

(** The state after the loop has started every goroutine:
    [results := make([]string, len(tasks))], [merr := MultiError{}]. *)
Definition start (tasks : list T) (w : @World W) : fanout :=
  mkFanout w (replicate (length tasks) "") MultiError.empty
    (imap (λ i task, mkGoroutine i task Spawned) tasks).

Definition is_Done (g : goroutine) : bool :=
  match g_at g with Done _ _ => true | _ => false end.

(** Read off a goroutine: the outcome of its single-create once it has
    returned, what it has written to its slot of the results, what it has
    appended to the aggregate, and how many steps it still has to take. *)
Definition outcome (g : goroutine) : option (string * option error) :=
  match g_at g with
  | Spawned => None
  | Returned tn err | Done tn err => Some (tn, err)
  end.

Definition slot (g : goroutine) : string :=
  match g_at g with
  | Done tn (Some err) =>
      match xerrors.As err with
      | Some appErr =>
          if ErrCode_eqb (Err.Code appErr) ErrAlreadyExists_Code then "" else tn
      | None => tn
      end
  | Done tn None => tn
  | _ => ""
  end.

Definition appended (g : goroutine) : list Error :=
  match g_at g with
  | Done tn err =>
      MultiError.Errors
        (record_outcome (g_i g) (g_task g) tn err [] MultiError.empty).2
  | _ => []
  end.

Definition remaining (g : goroutine) : nat :=
  match g_at g with
  | Spawned => 2
  | Returned _ _ => 1
  | Done _ _ => 0
  end.

(** The steps an execution still has to take. *)
Definition todo (f : fanout) : nat := sum_list (remaining <$> routines f).

(** What holds of the shared variables throughout an execution over the
    input [tasks]. *)
Definition fanout_inv (tasks : list T) (f : fanout) : Prop :=
  length (routines f) = length tasks ∧
  results f = slot <$> routines f ∧
  (∀ i g, routines f !! i = Some g →
      g_i g = i ∧ tasks !! i = Some (g_task g) ∧
      ∀ o, outcome g = Some o → ∃ w, (create (g_task g) w).1 = o) ∧
  MultiError.Errors (merr f) ≡ₚ routines f ≫= appended.

(** The multi-create under the schedule [sched].  The result is [None] when
    [sched] is not an execution of this fan-out up to the return of
    [wg.Wait()]: it names a step that cannot be taken, or stops before
    every goroutine is done. *)
Definition createMulti (tasks : list T) (sched : list event) (w : @World W)
  : option ((list string * option MultiError.t) * @World W) :=
  f ← run sched (start tasks w);
  if forallb is_Done (routines f) then
    Some ((results f, MultiError.ErrorOrNil (merr f)), world f)
  else None.

End FanOut.

Section Multi.

Context {W : Type}.

Definition CreateJsonPostTaskMulti (s : @Service W) (queue : Queue.t)
    (tasks : list JsonPostTask.t) (ops : list CreateTaskOptions)
    (sched : list event) (w : @World W)
  : option ((list string * option MultiError.t) * @World W) :=
  createMulti (λ task, CreateJsonPostTask s queue task ops)
    "failed CreateJsonPostTask" JsonPostTask.Name JsonPostTask.RelativeURI
    tasks sched w.

Definition CreateGetTaskMulti (s : @Service W) (queue : Queue.t)
    (tasks : list GetTask.t) (ops : list CreateTaskOptions)
    (sched : list event) (w : @World W)
  : option ((list string * option MultiError.t) * @World W) :=
  createMulti (λ task, CreateGetTask s queue task ops)
    "failed CreateGetTask" GetTask.Name GetTask.RelativeURI
    tasks sched w.

End Multi.

(** ** Observations and fixtures *)

Section Observe.
Context {W A : Type}.

(** The requests a computation sends when run from [w], oldest first. *)
Definition submitted (m : @M W A) (w : @World W) : list CreateTaskRequest.t :=
  drop (List.length (sent w)) (sent (m w).2).
End Observe.

(** A provider names the tasks it creates: every task it answers with has a
    non-empty name. *)
Definition names_created {W : Type} (c : @Client W) : Prop :=
  ∀ taskReq srv task srv', c taskReq srv = (inl task, srv') → Task.Name task ≠ "".


(** A provider for the examples: an in-memory queue service that holds the
    names of its tasks.  It names an unnamed task after the number of tasks it
    holds, and rejects a name it already holds with the status AlreadyExists. *)
Definition memory_queue : @Client (list string) :=
  λ req held,
    let task := CreateTaskRequest.Task req in
    if bool_decide (Task.Name task = "") then
      let name := CreateTaskRequest.Parent req +:+ "/tasks/"
                    +:+ pretty (List.length held) in
      (inl (with_Name name task), held ++ [name])
    else if bool_decide (Task.Name task ∈ held) then
      (inr (StatusError codes.AlreadyExists "Requested entity already exists"), held)
    else (inl task, held ++ [Task.Name task]).

(** A provider that answers every request with the status AlreadyExists. *)
Definition always_exists : @Client unit :=
  λ _ u, (inr (StatusError codes.AlreadyExists "Requested entity already exists"), u).

Definition ci_queue : Queue.t := Queue.mk "sinmetal-ci" "asia-northeast1" "gcpboxtest".
Definition ci_email : string := "sinmetal-ci@appspot.gserviceaccount.com".
Definition runHandlerURI : string :=
  "https://gcpboxtest-73zry4yfvq-an.a.run.app/cloudtasks/run/json-post-task".

Definition dquote : string := String (ascii_of_nat 34) EmptyString.

(** The body [&Body{Content: "Hello JsonPostTask"}] of the package's tests,
    with its JSON text and its [%+v] text. *)
Definition hello_body : json.Value :=
  json.mkValue
    (inl (list_byte_of_string
            ("{" +:+ dquote +:+ "Content" +:+ dquote +:+ ":"
                 +:+ dquote +:+ "Hello JsonPostTask" +:+ dquote +:+ "}")))
    "&{Content:Hello JsonPostTask}".

(** The service of the package's tests over the in-memory provider, an empty
    provider, and one that already holds the task named dup. *)
Definition ci_service : @Service (list string) := mkService memory_queue ci_email.
Definition fresh : @World (list string) := mkWorld [] [].
Definition holding_dup : @World (list string) :=
  mkWorld ["projects/sinmetal-ci/locations/asia-northeast1/queues/gcpboxtest/tasks/dup"] [].

(** The tasks of the package's tests, with a name to choose. *)
Definition hello_task (name : string) : JsonPostTask.t :=
  JsonPostTask.mk "" runHandlerURI time.zero (30 * time.Minute)%Z hello_body name.
Definition ping_task (name : string) : GetTask.t :=
  GetTask.mk "" ∅ runHandlerURI time.zero (30 * time.Minute)%Z name.

(** A task whose body [json.Marshal] refuses. *)
Definition unencodable_task : JsonPostTask.t :=
  JsonPostTask.mk "" runHandlerURI time.zero 0%Z
    (json.mkValue (inr (PlainError "json: unsupported type: chan int")) "0xc000010000")
    "chan".

(** 10000-01-01T00:00:00Z, the first instant past the provider's timestamps. *)
Definition year_10000 : time.Time :=
  time.mkTime (ptypes.maxValidSeconds + time.unixToInternal) 0.

Definition ping_request : HttpRequest.t :=
  HttpRequest.mk runHandlerURI HttpMethod_GET ∅ []
    (Some (HttpRequest_OidcToken (OidcToken.mk ci_email ""))).

(** The requests that [CreateTask] builds for the task named dup, and for an
    unnamed task with a deadline of thirty minutes. *)
Definition dup_request : CreateTaskRequest.t :=
  CreateTaskRequest.mk
    "projects/sinmetal-ci/locations/asia-northeast1/queues/gcpboxtest"
    (Task.mk
       "projects/sinmetal-ci/locations/asia-northeast1/queues/gcpboxtest/tasks/dup"
       (Some (Task_HttpRequest ping_request)) None None).
Definition half_hour_request : CreateTaskRequest.t :=
  CreateTaskRequest.mk
    "projects/sinmetal-ci/locations/asia-northeast1/queues/gcpboxtest"
    (Task.mk "" (Some (Task_HttpRequest ping_request)) None
       (Some (ptypes.mkDuration 1800 0))).

(** A batch with a duplicated name, a body that does not serialize and an
    unnamed task, under a schedule in which the second goroutine reaches the
    provider first; and a batch of two GET tasks of the same name. *)
Definition mixed_batch : list JsonPostTask.t :=
  [hello_task "dup"; hello_task "dup"; unencodable_task; hello_task ""].
Definition mixed_schedule : list event :=
  [Call 1; Call 0; Call 3; Record_ 0; Record_ 3; Call 2; Record_ 2; Record_ 1].
Definition ping_batch : list GetTask.t := [ping_task "a"; ping_task "a"].
Definition ping_schedule : list event := [Call 0; Call 1; Record_ 1; Record_ 0].

(** ** Further observations and fixtures *)

(** A string without [/], as the identifiers of projects, regions and queues
    are. *)
Fixpoint no_slash (s : string) : bool :=
  match s with
  | EmptyString => true
  | String c s' => negb (Ascii.eqb c "/") && no_slash s'
  end.

(** A time that [CreateTask] can send: the zero time, which is left out, or
    one that converts. *)
Definition sendable (t : time.Time) : Prop :=
  time.IsZero t = true ∨ ∃ ts, ptypes.TimestampProto t = inl ts.

(** A provider that accepts every request. *)
Definition always_accepts {W : Type} (c : @Client W) : Prop :=
  ∀ taskReq srv, ∃ task srv', c taskReq srv = (inl task, srv').

(** A provider that keeps the name it is given: the task it answers a named
    request with has that name. *)
Definition keeps_names {W : Type} (c : @Client W) : Prop :=
  ∀ taskReq srv task srv',
    c taskReq srv = (inl task, srv') →
    Task.Name (CreateTaskRequest.Task taskReq) ≠ "" →
    Task.Name task = Task.Name (CreateTaskRequest.Task taskReq).

(** How often the schedule lets goroutine [i] call its single-create. *)
Fixpoint calls_of (i : nat) (sched : list event) : nat :=
  match sched with
  | [] => 0
  | Call j :: sched' => (if Nat.eqb i j then 1 else 0) + calls_of i sched'
  | Record_ _ :: sched' => calls_of i sched'
  end.

(** Whether a goroutine has called its single-create, as a count. *)
Definition started {T : Type} (g : @goroutine T) : nat :=
  match g_at g with
  | Spawned => 0
  | _ => 1
  end.

(** A provider that is out of service: it answers every request with the
    status Unavailable. *)
Definition out_of_service : @Client unit :=
  λ _ u, (inr (StatusError codes.Unavailable "The service is currently unavailable"), u).

(** A provider without de-duplication: it keeps the name it is given, names
    an unnamed task after the number of tasks it has created, and rejects
    nothing. *)
Definition open_queue : @Client nat :=
  λ req n,
    let task := CreateTaskRequest.Task req in
    if bool_decide (Task.Name task = "") then
      (inl (with_Name (CreateTaskRequest.Parent req +:+ "/tasks/" +:+ pretty n) task),
       S n)
    else (inl task, S n).

Definition open_service : @Service nat := mkService open_queue ci_email.
Definition opened : @World nat := mkWorld 0%nat [].

(** The batch of the package's tests: ten unnamed JSON tasks; and the
    schedule that runs its goroutines in turn. *)
Definition ten_hellos : list JsonPostTask.t := replicate 10 (hello_task "").
Definition in_turn (n : nat) : list event :=
  flat_map (λ i, [Call i; Record_ i]) (seq 0 n).

(** 2020-01-01T00:00:00Z, and the request [CreateTask] builds for an unnamed
    task scheduled then. *)
Definition new_year_2020 : time.Time := time.mkTime 63713433600 0.
Definition scheduled_request : CreateTaskRequest.t :=
  CreateTaskRequest.mk
    "projects/sinmetal-ci/locations/asia-northeast1/queues/gcpboxtest"
    (Task.mk "" (Some (Task_HttpRequest ping_request))
       (Some (ptypes.mkTimestamp 1577836800 0)) None).

(** * Properties *)

(** ** Strings and options *)

Lemma string_app_empty_r (s : string) : s +:+ "" = s.
Proof.
  induction s as [|c s IH]; [reflexivity|].
  change (String c (s +:+ "") = String c s); congruence.
Qed.

Lemma ErrCode_eqb_eq (a b : ErrCode) : ErrCode_eqb a b = true ↔ a = b.
Proof. destruct a, b; simpl; split; congruence. Qed.

(** The options loop leaves the flag set exactly when an option was passed. *)
Lemma options_loop (ops : list CreateTaskOptions) (opt : createTaskOptions) :
  ignoreAlreadyExists (foldl (λ opt o, apply_option o opt) opt ops)
  = ignoreAlreadyExists opt || bool_decide (WithIgnoreAlreadyExists ∈ ops).
Proof.
  revert opt; induction ops as [|[] ops IH]; intros opt.
  - cbn [foldl]. case_bool_decide as H; [by apply elem_of_nil in H | by rewrite orb_false_r].
  - cbn [foldl]. rewrite IH. cbn [apply_option ignoreAlreadyExists orb].
    rewrite (bool_decide_eq_true_2 (WithIgnoreAlreadyExists ∈ WithIgnoreAlreadyExists :: ops))
      by left.
    by rewrite orb_true_r.
Qed.

(** The full name that [CreateTask] gives a named task. *)
Lemma task_name_format (P R N taskName : string) :
  fmt.Sprintf "projects/%s/locations/%s/queues/%s/tasks/%s" [P; R; N; taskName]
  = "projects/" +:+ P +:+ "/locations/" +:+ R +:+ "/queues/" +:+ N
      +:+ "/tasks/" +:+ taskName.
Proof. cbn. by rewrite string_app_empty_r. Qed.

(** [Sprintf] on too few and on too many operands. *)
Example Sprintf_missing : fmt.Sprintf "%s/%s" ["a"] = "a/%!s(MISSING)".
Proof. reflexivity. Qed.

Example Sprintf_extra : fmt.Sprintf "%s" ["a"; "b"] = "a%!(EXTRA string=b)".
Proof. reflexivity. Qed.

(** The zero time converts, to the first second of year 1. *)
Example zero_time_converts :
  ptypes.TimestampProto time.zero = inl (ptypes.mkTimestamp (-62135596800) 0).
Proof. reflexivity. Qed.

(** Thirty minutes and minus one and a half seconds as provider durations. *)
Example half_hour_duration :
  ptypes.DurationProto (30 * time.Minute)%Z = ptypes.mkDuration 1800 0.
Proof. reflexivity. Qed.

Example negative_duration :
  ptypes.DurationProto (-1500000000)%Z = ptypes.mkDuration (-1) (-500000000).
Proof. reflexivity. Qed.

(** ** The queue identifier *)

(** C9: for a queue with project P, region R and name N, [Parent] is the
    string projects/P/locations/R/queues/N.  [Parent] is a total function from
    queues to strings: it reads nothing but its argument, changes no state and
    has no error result. *)
Theorem Parent_format (P R N : string) :
  Queue.Parent (Queue.mk P R N)
  = "projects/" +:+ P +:+ "/locations/" +:+ R +:+ "/queues/" +:+ N.
Proof.
  unfold Queue.Parent; cbn.
  by rewrite string_app_empty_r.
Qed.

(** ** The primitive creation *)

Section CreateTaskFacts.

Context {W : Type}.
Implicit Types (s : @Service W) (w : @World W) (queue : Queue.t).

(** [CreateTask] either stops at the timestamp conversion, leaving the world
    as it was, or sends exactly one request, whose fields and whose answer
    are as follows. *)
Lemma CreateTask_cases s queue taskName req t d ops w :
  (∃ err,
      time.IsZero t = false ∧ ptypes.TimestampProto t = inr err ∧
      CreateTask s queue taskName req t d ops w
      = (inr (AppError (NewErrInvalidArgument "invalid ScheduleTime"
                          {[ "ScheduledTime" := AnyTime t ]} (Foreign err))), w))
  ∨
  (∃ taskReq,
      (time.IsZero t = true ∨ ∃ ts, ptypes.TimestampProto t = inl ts) ∧
      CreateTaskRequest.Parent taskReq = Queue.Parent queue ∧
      Task.Name (CreateTaskRequest.Task taskReq)
      = (if bool_decide (taskName = "") then ""
         else fmt.Sprintf "projects/%s/locations/%s/queues/%s/tasks/%s"
                [Queue.ProjectID queue; Queue.Region queue; Queue.Name queue; taskName]) ∧
      Task.MessageType (CreateTaskRequest.Task taskReq) = Some (Task_HttpRequest req) ∧
      Task.ScheduleTime (CreateTaskRequest.Task taskReq)
      = (if time.IsZero t then None
         else match ptypes.TimestampProto t with
              | inl ts => Some ts
              | inr _ => None
              end) ∧
      Task.DispatchDeadline (CreateTaskRequest.Task taskReq)
      = (if bool_decide (d = 0%Z) then None else Some (ptypes.DurationProto d)) ∧
      CreateTask s queue taskName req t d ops w
      = (match (taskClient s taskReq (server w)).1 with
         | inl task => inl task
         | inr (StatusError c msg) =>
             if codes.eqb c codes.AlreadyExists then
               if bool_decide (WithIgnoreAlreadyExists ∈ ops) then
                 inl (CreateTaskRequest.Task taskReq)
               else
                 inr (AppError (NewErrAlreadyExists
                        (fmt.Sprintf "%s is already exists."
                           [Task.Name (CreateTaskRequest.Task taskReq)])
                        {[ "taskName" :=
                             AnyString (Task.Name (CreateTaskRequest.Task taskReq)) ]}
                        (Foreign (StatusError c msg))))
             else inr (Foreign (StatusError c msg))
         | inr (PlainError msg) => inr (Foreign (PlainError msg))
         end,
         mkWorld (taskClient s taskReq (server w)).2 (sent w ++ [taskReq]))).
Proof.
  unfold CreateTask.
  rewrite options_loop; cbn [ignoreAlreadyExists orb].
  assert (Hname : bool_decide (0 < String.length taskName)%nat
                  = negb (bool_decide (taskName = ""))).
  { destruct taskName; reflexivity. }
  rewrite Hname; clear Hname.
  assert (Hd : bool_decide (d ≠ 0%Z) = negb (bool_decide (d = 0%Z))).
  { by rewrite bool_decide_not. }
  rewrite Hd; clear Hd.
  destruct (time.IsZero t) eqn:Hz; cbn [negb];
    [| destruct (ptypes.TimestampProto t) as [ts|err] eqn:Hts];
    [| | left; exists err; done].
  all: right.
  all: destruct (bool_decide (taskName = "")), (bool_decide (d = 0%Z)); cbn [negb].
  all: lazymatch goal with
       | |- context [remote_CreateTask _ ?r] => exists r
       end.
  all: split_and!; try reflexivity; eauto.
  all: unfold mbind, M_bind, remote_CreateTask, mret, M_ret.
  all: match goal with |- context [taskClient ?s' ?r ?srv] =>
         destruct (taskClient s' r srv) as [[task|[c msg|msg]] srv']
       end; cbn [fst snd status.FromError].
  all: try destruct (codes.eqb c codes.AlreadyExists).
  all: try destruct (bool_decide (WithIgnoreAlreadyExists ∈ ops)); reflexivity.
Qed.

(** What a call of [CreateTask] sends: nothing when the conversion of the
    scheduled time fails, and otherwise one request built from the
    arguments. *)
Lemma CreateTask_submitted s queue taskName req t d ops w :
  (time.IsZero t = false ∧ (∃ err, ptypes.TimestampProto t = inr err) ∧
   submitted (CreateTask s queue taskName req t d ops) w = [])
  ∨
  (∃ taskReq,
      submitted (CreateTask s queue taskName req t d ops) w = [taskReq] ∧
      (time.IsZero t = true ∨ ∃ ts, ptypes.TimestampProto t = inl ts) ∧
      CreateTaskRequest.Parent taskReq = Queue.Parent queue ∧
      Task.Name (CreateTaskRequest.Task taskReq)
      = (if bool_decide (taskName = "") then ""
         else fmt.Sprintf "projects/%s/locations/%s/queues/%s/tasks/%s"
                [Queue.ProjectID queue; Queue.Region queue; Queue.Name queue; taskName]) ∧
      Task.MessageType (CreateTaskRequest.Task taskReq) = Some (Task_HttpRequest req) ∧
      Task.ScheduleTime (CreateTaskRequest.Task taskReq)
      = (if time.IsZero t then None
         else match ptypes.TimestampProto t with
              | inl ts => Some ts
              | inr _ => None
              end) ∧
      Task.DispatchDeadline (CreateTaskRequest.Task taskReq)
      = (if bool_decide (d = 0%Z) then None else Some (ptypes.DurationProto d))).
Proof.
  unfold submitted.
  destruct (CreateTask_cases s queue taskName req t d ops w)
    as [(err & Hz & Hts & ->) | (taskReq & Hconv & HP & HN & HM & HS & HD & ->)].
  - left. split_and!; [done | by exists err |]. cbn [snd]. by rewrite drop_all.
  - right. exists taskReq. cbn [snd sent].
    rewrite drop_app_length. by split_and!.
Qed.

(** C5: when the scheduled time is not the zero time and its conversion to
    the provider's timestamp fails, [CreateTask] returns an InvalidArgument
    error whose context holds the scheduled time under ScheduledTime; the
    world is left as it was, so no request reached the provider. *)
Theorem CreateTask_invalid_schedule_time s queue taskName req t d ops w err :
  time.IsZero t = false →
  ptypes.TimestampProto t = inr err →
  ∃ e, CreateTask s queue taskName req t d ops w = (inr (AppError e), w) ∧
       Err.Code e = InvalidArgument ∧
       Err.KV e !! "ScheduledTime" = Some (AnyTime t) ∧
       submitted (CreateTask s queue taskName req t d ops) w = [].
Proof.
  intros Hz Hts.
  destruct (CreateTask_cases s queue taskName req t d ops w)
    as [(err' & _ & Hts' & Heq) | (taskReq & [Hz' | [ts Hts']] & _)];
    [| congruence | congruence].
  eexists; split_and!; [exact Heq | reflexivity | apply lookup_singleton_eq |].
  unfold submitted; rewrite Heq; cbn [snd]. by rewrite drop_all.
Qed.

(** C6: the request that a call of [CreateTask] sends names its task
    projects/P/locations/R/queues/N/tasks/taskName when taskName is not
    empty, from the queue's project P, region R and name N; when taskName is
    empty the name is left unset. *)
Theorem CreateTask_resource_name s queue taskName req t d ops w taskReq :
  taskReq ∈ submitted (CreateTask s queue taskName req t d ops) w →
  (taskName ≠ "" →
     Task.Name (CreateTaskRequest.Task taskReq)
     = "projects/" +:+ Queue.ProjectID queue +:+ "/locations/"
         +:+ Queue.Region queue +:+ "/queues/" +:+ Queue.Name queue
         +:+ "/tasks/" +:+ taskName) ∧
  (taskName = "" → Task.Name (CreateTaskRequest.Task taskReq) = "").
Proof.
  intros Hin.
  destruct (CreateTask_submitted s queue taskName req t d ops w)
    as [(_ & _ & Hnil) | (r & Hone & _ & _ & HN & _)].
  - rewrite Hnil in Hin. by apply elem_of_nil in Hin.
  - rewrite Hone in Hin. apply list_elem_of_singleton in Hin as ->.
    rewrite HN. case_bool_decide; split; try done.
    intros _. apply task_name_format.
Qed.

(** C8: in the request that a call of [CreateTask] sends, the schedule time
    is unset exactly when the scheduled time is the zero time, and the
    dispatch deadline is unset exactly when the deadline is zero; a non-zero
    deadline is sent converted. *)
Theorem CreateTask_optional_fields s queue taskName req t d ops w taskReq :
  taskReq ∈ submitted (CreateTask s queue taskName req t d ops) w →
  (Task.ScheduleTime (CreateTaskRequest.Task taskReq) = None ↔ time.IsZero t = true) ∧
  (Task.DispatchDeadline (CreateTaskRequest.Task taskReq) = None ↔ d = 0%Z) ∧
  (d ≠ 0%Z →
     Task.DispatchDeadline (CreateTaskRequest.Task taskReq)
     = Some (ptypes.DurationProto d)).
Proof.
  intros Hin.
  destruct (CreateTask_submitted s queue taskName req t d ops w)
    as [(_ & _ & Hnil) | (r & Hone & Hconv & _ & _ & _ & HS & HD)].
  - rewrite Hnil in Hin. by apply elem_of_nil in Hin.
  - rewrite Hone in Hin. apply list_elem_of_singleton in Hin as ->.
    rewrite HS, HD. split_and!.
    + destruct (time.IsZero t); [done |].
      destruct Hconv as [? | [ts ->]]; [done | split; congruence].
    + case_bool_decide; split; congruence.
    + intros Hd. by rewrite bool_decide_eq_false_2.
Qed.

(** C2: when the provider answers the request of a [CreateTask] call with
    the status AlreadyExists, the call returns the task it built for the
    request, without error, if the ignore option was passed; otherwise it
    returns an AlreadyExists error whose context maps taskName to the name
    of that task, which for a non-empty taskName is the full resource name
    projects/P/locations/R/queues/N/tasks/taskName. *)
Theorem CreateTask_already_exists s queue taskName req t d ops w taskReq msg srv' :
  submitted (CreateTask s queue taskName req t d ops) w = [taskReq] →
  taskClient s taskReq (server w)
  = (inr (StatusError codes.AlreadyExists msg), srv') →
  (WithIgnoreAlreadyExists ∈ ops →
     (CreateTask s queue taskName req t d ops w).1
     = inl (CreateTaskRequest.Task taskReq)) ∧
  (WithIgnoreAlreadyExists ∉ ops →
     ∃ e, (CreateTask s queue taskName req t d ops w).1 = inr (AppError e) ∧
          Err.Code e = AlreadyExists ∧
          Err.KV e
          = {[ "taskName" := AnyString (Task.Name (CreateTaskRequest.Task taskReq)) ]}) ∧
  (taskName ≠ "" →
     Task.Name (CreateTaskRequest.Task taskReq)
     = "projects/" +:+ Queue.ProjectID queue +:+ "/locations/"
         +:+ Queue.Region queue +:+ "/queues/" +:+ Queue.Name queue
         +:+ "/tasks/" +:+ taskName).
Proof.
  intros Hone Hrej.
  assert (Hin : taskReq ∈ submitted (CreateTask s queue taskName req t d ops) w)
    by (rewrite Hone; by left).
  destruct (CreateTask_cases s queue taskName req t d ops w)
    as [(err & _ & _ & Heq) | (r & _ & _ & HN & _ & _ & _ & Heq)].
  - unfold submitted in Hone. rewrite Heq in Hone. cbn [snd] in Hone.
    by rewrite drop_all in Hone.
  - assert (r = taskReq) as ->.
    { unfold submitted in Hone. rewrite Heq in Hone. cbn [snd sent] in Hone.
      rewrite drop_app_length in Hone. congruence. }
    rewrite Heq, Hrej. cbn [fst codes.eqb]. split_and!.
    + intros Hi. by rewrite bool_decide_eq_true_2.
    + intros Hi. rewrite bool_decide_eq_false_2 by done.
      eexists; split_and!; reflexivity.
    + intros Hne. rewrite HN, bool_decide_eq_false_2 by done.
      apply task_name_format.
Qed.

End CreateTaskFacts.

(** ** The typed creations *)

Section TypedCreateFacts.

Context {W : Type}.
Implicit Types (s : @Service W) (w : @World W) (queue : Queue.t).

Lemma CreateJsonPostTask_marshalled s queue task ops w body :
  json.Marshal (JsonPostTask.Body task) = inl body →
  CreateJsonPostTask s queue task ops w
  = let r := CreateTask s queue (JsonPostTask.Name task)
               (HttpRequest.mk (JsonPostTask.RelativeURI task) HttpMethod_POST
                  {[ "Content-Type" := "application/json" ]} body
                  (Some (HttpRequest_OidcToken
                           (OidcToken.mk (serviceAccountEmail s)
                                         (JsonPostTask.Audience task)))))
               (JsonPostTask.ScheduledTime task) (JsonPostTask.Deadline task) ops w in
    (match r.1 with
     | inr err =>
         ("", Some (WrapError
                      "failed CreateJsonPostTask(). queue=%+v, body=%+v : %w"
                      [Queue.show queue; json.show (JsonPostTask.Body task)] err))
     | inl got => (Task.Name got, None)
     end, r.2).
Proof.
  intros Hm. unfold CreateJsonPostTask. rewrite Hm.
  unfold mbind, M_bind, mret, M_ret.
  by destruct (CreateTask _ _ _ _ _ _ _ _) as [[got|err] w'].
Qed.

Lemma CreateGetTask_unfold s queue task ops w :
  CreateGetTask s queue task ops w
  = let r := CreateTask s queue (GetTask.Name task)
               (HttpRequest.mk (GetTask.RelativeURI task) HttpMethod_GET
                  (GetTask.Headers task) []
                  (Some (HttpRequest_OidcToken
                           (OidcToken.mk (serviceAccountEmail s)
                                         (GetTask.Audience task)))))
               (GetTask.ScheduledTime task) (GetTask.Deadline task) ops w in
    (match r.1 with
     | inr err =>
         ("", Some (WrapError
                      "failed CreateJsonPostTask(). queue=%+v, url=%s : %w"
                      [Queue.show queue; GetTask.RelativeURI task] err))
     | inl got => (Task.Name got, None)
     end, r.2).
Proof.
  unfold CreateGetTask, mbind, M_bind, mret, M_ret.
  by destruct (CreateTask _ _ _ _ _ _ _ _) as [[got|err] w'].
Qed.

(** A failed single-create returns the empty string beside its error. *)
Lemma CreateJsonPostTask_failed s queue task ops w tn e w' :
  CreateJsonPostTask s queue task ops w = ((tn, Some e), w') → tn = "".
Proof.
  destruct (json.Marshal (JsonPostTask.Body task)) as [body|err] eqn:Hm.
  - rewrite (CreateJsonPostTask_marshalled _ _ _ _ _ body Hm). cbn zeta.
    destruct (CreateTask _ _ _ _ _ _ _ _).1; intros [= <- _ _]; done.
  - unfold CreateJsonPostTask. rewrite Hm. by intros [= <- _ _].
Qed.

Lemma CreateGetTask_failed s queue task ops w tn e w' :
  CreateGetTask s queue task ops w = ((tn, Some e), w') → tn = "".
Proof.
  rewrite CreateGetTask_unfold. cbn zeta.
  destruct (CreateTask _ _ _ _ _ _ _ _).1; intros [= <- _ _]; done.
Qed.

(** C7: when the body of a JsonPostTask serializes, [CreateJsonPostTask]
    hands [CreateTask] an HTTP request with the method POST, the single
    header Content-Type: application/json, the serialized body, and an OIDC
    token made of the service's account email and the task's Audience; what
    it sends is what that call of [CreateTask] sends, and every request sent
    carries this HTTP request. *)
Theorem CreateJsonPostTask_request s queue task ops w body :
  json.Marshal (JsonPostTask.Body task) = inl body →
  ∃ req,
    HttpRequest.HttpMethod req = HttpMethod_POST ∧
    HttpRequest.Headers req = {[ "Content-Type" := "application/json" ]} ∧
    HttpRequest.Body req = body ∧
    HttpRequest.AuthorizationHeader req
    = Some (HttpRequest_OidcToken
              (OidcToken.mk (serviceAccountEmail s) (JsonPostTask.Audience task))) ∧
    HttpRequest.Url req = JsonPostTask.RelativeURI task ∧
    submitted (CreateJsonPostTask s queue task ops) w
    = submitted (CreateTask s queue (JsonPostTask.Name task) req
                   (JsonPostTask.ScheduledTime task) (JsonPostTask.Deadline task) ops) w ∧
    ∀ taskReq,
      taskReq ∈ submitted (CreateJsonPostTask s queue task ops) w →
      Task.MessageType (CreateTaskRequest.Task taskReq) = Some (Task_HttpRequest req).
Proof.
  intros Hm. eexists (HttpRequest.mk _ _ _ _ _).
  split_and!; try reflexivity.
  - unfold submitted. by rewrite (CreateJsonPostTask_marshalled _ _ _ _ _ body Hm).
  - intros taskReq. unfold submitted at 1.
    rewrite (CreateJsonPostTask_marshalled _ _ _ _ _ body Hm). cbn zeta. cbn [snd].
    fold (submitted (CreateTask s queue (JsonPostTask.Name task)
            (HttpRequest.mk (JsonPostTask.RelativeURI task) HttpMethod_POST
               {[ "Content-Type" := "application/json" ]} body
               (Some (HttpRequest_OidcToken
                        (OidcToken.mk (serviceAccountEmail s)
                                      (JsonPostTask.Audience task)))))
            (JsonPostTask.ScheduledTime task) (JsonPostTask.Deadline task) ops) w).
    intros Hin.
    destruct (CreateTask_submitted s queue (JsonPostTask.Name task)
            (HttpRequest.mk (JsonPostTask.RelativeURI task) HttpMethod_POST
               {[ "Content-Type" := "application/json" ]} body
               (Some (HttpRequest_OidcToken
                        (OidcToken.mk (serviceAccountEmail s)
                                      (JsonPostTask.Audience task)))))
            (JsonPostTask.ScheduledTime task) (JsonPostTask.Deadline task) ops w)
      as [(_ & _ & Hnil) | (r & Hone & _ & _ & _ & HM & _)].
    + rewrite Hnil in Hin. by apply elem_of_nil in Hin.
    + rewrite Hone in Hin. by apply list_elem_of_singleton in Hin as ->.
Qed.




End TypedCreateFacts.

(** ** The fan-out *)

Lemma bind_nil_all {A B : Type} (h : A → list B) (l : list A) :
  (∀ x, x ∈ l → h x = []) → l ≫= h = [].
Proof.
  induction l as [|a l IH]; intros Hall; [done |].
  cbn. rewrite Hall by (by left). rewrite IH; [done |].
  intros x Hx. apply Hall. by right.
Qed.

Lemma bind_nil_inv {A B : Type} (h : A → list B) (l : list A) x :
  l ≫= h = [] → x ∈ l → h x = [].
Proof.
  induction l as [|a l IH]; intros Hnil Hx; [by apply elem_of_nil in Hx |].
  cbn in Hnil. apply app_eq_nil in Hnil as [Ha Hl].
  apply elem_of_cons in Hx as [-> | Hx]; [done | by apply IH].
Qed.

(** Replacing an element that contributed nothing adds the contribution of
    its replacement, up to order. *)
Lemma bind_insert_fresh {A B : Type} (h : A → list B) (l : list A) i x y :
  l !! i = Some x → h x = [] → <[i := y]> l ≫= h ≡ₚ (l ≫= h) ++ h y.
Proof.
  revert i; induction l as [|a l IH]; intros [|i] Hi Hx; try done.
  - injection Hi as ->. cbn. rewrite Hx. cbn. apply Permutation_app_comm.
  - cbn. rewrite (IH i Hi Hx). by rewrite (assoc (++)).
Qed.

Section FanOutFacts.

Context {W T : Type}.
Variable create : T → @M W (string * option error).
Variable message : string.
Variable task_Name task_RelativeURI : T → string.

Abbreviation record_outcome := (record_outcome message task_Name task_RelativeURI).
Abbreviation step := (step create message task_Name task_RelativeURI).
Abbreviation run := (run create message task_Name task_RelativeURI).
Abbreviation createMulti := (createMulti create message task_Name task_RelativeURI).
Abbreviation slot := (@slot T).
Abbreviation appended := (appended message task_Name task_RelativeURI).
Abbreviation fanout_inv := (fanout_inv create message task_Name task_RelativeURI).

Implicit Types (f : @fanout W T) (g : @goroutine T) (tasks : list T).

(** [record_outcome] writes the goroutine's slot and extends the aggregate
    by what the goroutine appends. *)
Lemma record_outcome_eq i task tn err (results : list string) merr :
  results !! i = Some "" →
  record_outcome i task tn err results merr
  = (<[i := slot (mkGoroutine i task (Done tn err))]> results,
     MultiError.mk (MultiError.Errors merr
                      ++ appended (mkGoroutine i task (Done tn err)))).
Proof.
  intros Hi. unfold record_outcome, slot, appended; cbn [g_at g_i g_task].
  unfold record_outcome.
  destruct err as [err|]; [destruct (xerrors.As err) as [a|];
    [destruct (ErrCode_eqb (Err.Code a) ErrAlreadyExists_Code)|]|];
    cbn [fst snd MultiError.Append MultiError.Errors MultiError.empty app];
    rewrite ?app_nil_r; try reflexivity.
  - by rewrite list_insert_id.
  - by destruct merr.
Qed.

Lemma start_inv tasks w : fanout_inv tasks (start tasks w).
Proof.
  unfold fanout_inv, start; cbn [routines results merr MultiError.Errors MultiError.empty].
  split_and!.
  - by rewrite length_imap.
  - apply list_eq; intros i.
    rewrite list_lookup_fmap, list_lookup_imap.
    destruct (decide (i < length tasks)%nat) as [Hlt|Hge].
    + rewrite lookup_replicate_2 by done.
      destruct (lookup_lt_is_Some_2 tasks i Hlt) as [task ->]. done.
    + rewrite (proj1 (lookup_replicate_None _ _ _)) by lia.
      rewrite (lookup_ge_None_2 tasks i) by lia. done.
  - intros i g. rewrite list_lookup_imap.
    destruct (tasks !! i) as [task|] eqn:Ht; [| done].
    cbn. intros [= <-]. cbn. split_and!; [done | done | intros o [=]].
  - rewrite bind_nil_all; [done |].
    intros g [i [task [-> _]]]%elem_of_lookup_imap. done.
Qed.

Lemma step_inv tasks ev f f' :
  fanout_inv tasks f → step ev f = Some f' → fanout_inv tasks f'.
Proof.
  intros (Hlen & Hres & Hrt & Hagg) Hstep.
  destruct ev as [i|i]; cbn in Hstep;
    destruct (routines f !! i) as [[gi task [|tn err|tn err]]|] eqn:Hg;
    try discriminate.
  - destruct (create task (world f)) as [[tn err] w'] eqn:Hc.
    injection Hstep as <-.
    destruct (Hrt _ _ Hg) as (Hgi & Htask & _); cbn in Hgi, Htask.
    unfold fanout_inv; cbn [routines results merr]. split_and!.
    + by rewrite length_insert.
    + rewrite list_fmap_insert, Hres. symmetry. apply list_insert_id.
      by rewrite list_lookup_fmap, Hg.
    + intros j g. destruct (decide (i = j)) as [<-|Hne].
      * rewrite list_lookup_insert_eq by (by eapply lookup_lt_Some).
        intros [= <-]. cbn. split_and!; [done | done |].
        intros o [= <-]. exists (world f). by rewrite Hc.
      * rewrite list_lookup_insert_ne by done. apply Hrt.
    + rewrite Hagg.
      rewrite (bind_insert_fresh appended _ _ _ _ Hg) by done.
      by rewrite app_nil_r.
  - destruct (Hrt _ _ Hg) as (Hgi & Htask & Hout); cbn in Hgi, Htask, Hout.
    subst gi.
    rewrite record_outcome_eq in Hstep
      by (by rewrite Hres, list_lookup_fmap, Hg).
    injection Hstep as <-.
    unfold fanout_inv; cbn [routines results merr MultiError.Errors]. split_and!.
    + by rewrite length_insert.
    + by rewrite list_fmap_insert, Hres.
    + intros j g. destruct (decide (i = j)) as [<-|Hne].
      * rewrite list_lookup_insert_eq by (by eapply lookup_lt_Some).
        intros [= <-]. cbn. split_and!; [done | done |].
        intros o [= <-]. by apply Hout.
      * rewrite list_lookup_insert_ne by done. apply Hrt.
    + rewrite Hagg. symmetry. by eapply bind_insert_fresh.
Qed.

Lemma run_inv tasks sched f f' :
  fanout_inv tasks f → run sched f = Some f' → fanout_inv tasks f'.
Proof.
  revert f; induction sched as [|ev sched IH]; intros f Hinv; cbn.
  - by intros [= <-].
  - destruct (step ev f) as [f1|] eqn:Hstep; [| done].
    cbn. apply IH. by eapply step_inv.
Qed.

(** *** Every execution ends

    Each step brings one goroutine one step closer to its end; as long as a
    goroutine is not done some step can be taken; so every execution can be
    carried on until [wg.Wait()] returns, and it then has taken two steps per
    input item. *)

Lemma remaining_insert (l : list goroutine) i g g' :
  l !! i = Some g →
  (sum_list (remaining <$> <[i := g']> l) + remaining g
   = sum_list (remaining <$> l) + remaining g')%nat.
Proof.
  revert i; induction l as [|a l IH]; intros [|i] Hi; try done.
  - injection Hi as ->. cbn. lia.
  - specialize (IH i Hi).
    change (<[S i := g']> (a :: l)) with (a :: <[i := g']> l).
    rewrite !fmap_cons. cbn [sum_list_with]. lia.
Qed.

Lemma step_todo ev f f' : step ev f = Some f' → todo f = S (todo f').
Proof.
  intros Hstep.
  destruct ev as [i|i]; cbn in Hstep;
    destruct (routines f !! i) as [[gi task [|tn err|tn err]]|] eqn:Hg;
    try discriminate.
  - destruct (create task (world f)) as [[tn err] w'].
    injection Hstep as <-. unfold todo; cbn [routines].
    pose proof (remaining_insert _ _ _ (mkGoroutine gi task (Returned tn err)) Hg) as H.
    cbn in H. lia.
  - destruct (record_outcome gi task tn err (results f) (merr f)) as [r m].
    injection Hstep as <-. unfold todo; cbn [routines].
    pose proof (remaining_insert _ _ _ (mkGoroutine gi task (Done tn err)) Hg) as H.
    cbn in H. lia.
Qed.

Lemma run_todo sched f f' :
  run sched f = Some f' → todo f = (length sched + todo f')%nat.
Proof.
  revert f; induction sched as [|ev sched IH]; intros f; cbn.
  - by intros [= <-].
  - destruct (step ev f) as [f1|] eqn:Hstep; [| done].
    cbn. intros Hrun. rewrite (step_todo _ _ _ Hstep), (IH _ Hrun). lia.
Qed.

Lemma run_app sched1 sched2 f :
  run (sched1 ++ sched2) f = run sched1 f ≫= run sched2.
Proof.
  revert f; induction sched1 as [|ev sched1 IH]; intros f; cbn; [done |].
  destruct (step ev f) as [f1|]; cbn; [apply IH | done].
Qed.

Lemma todo_start tasks (w : @World W) :
  todo (start tasks w) = (2 * length tasks)%nat.
Proof.
  unfold todo, start; cbn [routines].
  rewrite fmap_imap.
  change (imap _ tasks) with (imap (const (λ _ : T, 2%nat)) tasks).
  rewrite imap_const.
  induction tasks as [|task tasks IH]; [done |].
  rewrite fmap_cons. cbn [sum_list_with length]. rewrite IH. unfold id. lia.
Qed.

Lemma todo_Done f : todo f = 0%nat ↔ forallb is_Done (routines f) = true.
Proof.
  unfold todo. induction (routines f) as [|[gi task [|tn err|tn err]] l IH];
    [done | | |]; rewrite fmap_cons; cbn [sum_list_with forallb is_Done g_at remaining id];
    unfold id; cbn [andb].
  - split; [lia | done].
  - split; [lia | done].
  - rewrite <- IH. reflexivity.
Qed.

Lemma step_possible f : todo f ≠ 0%nat → ∃ ev f', step ev f = Some f'.
Proof.
  unfold todo. intros Hne.
  assert (∃ i g, routines f !! i = Some g ∧ remaining g ≠ 0%nat)
    as (i & [gi task at_] & Hg & Hrem).
  { induction (routines f) as [|g l IH]; [done |].
    destruct (decide (remaining g = 0%nat)) as [Hz|Hnz].
    - rewrite fmap_cons in Hne. cbn [sum_list_with] in Hne.
      change (id (remaining g)) with (remaining g) in Hne.
      destruct IH as (i & g' & Hi & Hg'); [lia |].
      by exists (S i), g'.
    - by exists 0%nat, g. }
  destruct at_ as [|tn err|tn err]; [| | done].
  - exists (Call i). cbn. rewrite Hg.
    destruct (create task (world f)) as [[tn err] w']. eauto.
  - exists (Record_ i). cbn. rewrite Hg.
    destruct (record_outcome gi task tn err (results f) (merr f)). eauto.
Qed.

Lemma run_to_end f : ∃ rest f', run rest f = Some f' ∧ todo f' = 0%nat.
Proof.
  remember (todo f) as n eqn:Hn. revert f Hn.
  induction n as [|n IH]; intros f Hn.
  - exists [], f. done.
  - destruct (step_possible f) as (ev & f1 & Hstep); [lia |].
    destruct (IH f1) as (rest & f' & Hrun & Hend).
    { apply step_todo in Hstep. lia. }
    exists (ev :: rest), f'. cbn. rewrite Hstep. done.
Qed.

(** Every execution of the fan-out can be carried on until the multi-create
    returns. *)
Lemma createMulti_returns tasks sched (w : @World W) f :
  run sched (start tasks w) = Some f →
  ∃ rest out, createMulti tasks (sched ++ rest) w = Some out.
Proof.
  intros Hrun.
  destruct (run_to_end f) as (rest & f' & Hrest & Hend).
  exists rest. unfold createMulti. rewrite run_app, Hrun. cbn. rewrite Hrest. cbn.
  apply todo_Done in Hend. rewrite Hend. eauto.
Qed.

(** An execution up to the return has taken two steps for each input item. *)
Lemma createMulti_steps tasks sched (w : @World W) out :
  createMulti tasks sched w = Some out →
  length sched = (2 * length tasks)%nat.
Proof.
  unfold createMulti.
  destruct (run sched (start tasks w)) as [f|] eqn:Hrun; [| done]. cbn.
  destruct (forallb is_Done (routines f)) eqn:Hd; [| done]. intros _.
  apply run_todo in Hrun. apply todo_Done in Hd.
  rewrite todo_start in Hrun. lia.
Qed.

(** *** What the multi-create returns *)

Lemma appended_Done i task tn err :
  appended (mkGoroutine i task (Done tn err))
  = match err with
    | None => []
    | Some e =>
        [match xerrors.As e with
         | Some appErr =>
             if ErrCode_eqb (Err.Code appErr) ErrAlreadyExists_Code then
               Err.set_KV "index" (AnyInt (Z.of_nat i)) appErr
             else
               NewErrCreateMultiTask message
                 {[ "index" := AnyInt (Z.of_nat i);
                    "taskName" := AnyString (task_Name task);
                    "URI" := AnyString (task_RelativeURI task) ]} e
         | None =>
             NewErrCreateMultiTask message
               {[ "index" := AnyInt (Z.of_nat i);
                  "taskName" := AnyString (task_Name task);
                  "URI" := AnyString (task_RelativeURI task) ]} e
         end]
    end.
Proof.
  unfold appended; cbn [g_at g_i g_task]. unfold record_outcome.
  destruct err as [e|]; [| done].
  destruct (xerrors.As e) as [a|]; [| done].
  by destruct (ErrCode_eqb (Err.Code a) ErrAlreadyExists_Code).
Qed.

Lemma createMulti_final tasks sched (w : @World W) res agg w' :
  createMulti tasks sched w = Some ((res, agg), w') →
  ∃ f, fanout_inv tasks f ∧ forallb is_Done (routines f) = true ∧
       res = results f ∧ agg = MultiError.ErrorOrNil (merr f) ∧ w' = world f.
Proof.
  unfold createMulti.
  destruct (run sched (start tasks w)) as [f|] eqn:Hrun; [| done]. cbn.
  destruct (forallb is_Done (routines f)) eqn:Hd; [| done].
  intros [= <- <- <-]. exists f. split_and!; try done.
  eapply run_inv; [apply start_inv | exact Hrun].
Qed.

(** The returned slice and aggregate in terms of the outcomes of the
    single-creates, whatever the schedule. *)
Lemma createMulti_spec tasks sched (w : @World W) res agg w' :
  createMulti tasks sched w = Some ((res, agg), w') →
  ∃ outcomes : list (string * option error),
    length outcomes = length tasks ∧
    length res = length tasks ∧
    (∀ i task o, tasks !! i = Some task → outcomes !! i = Some o →
       ∃ wi, (create task wi).1 = o) ∧
    (∀ i task tn err, tasks !! i = Some task → outcomes !! i = Some (tn, err) →
       res !! i = Some (slot (mkGoroutine i task (Done tn err)))) ∧
    (agg = None ↔ ∀ o, o ∈ outcomes → o.2 = None) ∧
    (∀ i task tn err, tasks !! i = Some task → outcomes !! i = Some (tn, Some err) →
       ∃ m e, agg = Some m ∧ e ∈ MultiError.Errors m ∧
              appended (mkGoroutine i task (Done tn (Some err))) = [e]) ∧
    (∀ m, agg = Some m →
       length (MultiError.Errors m)
       = length (filter (λ o, is_Some o.2) outcomes)).
Proof.
  intros (f & (Hlen & Hres & Hrt & Hagg) & Hdone & -> & -> & ->)%createMulti_final.
  set (h := λ g : @goroutine T, default ("", None) (outcome g)).
  assert (HA : ∀ i g, routines f !! i = Some g →
            ∃ tn err, g = mkGoroutine i (g_task g) (Done tn err) ∧
                      tasks !! i = Some (g_task g) ∧ h g = (tn, err) ∧
                      ∃ wi, (create (g_task g) wi).1 = (tn, err)).
  { intros i g Hg. destruct (Hrt i g Hg) as (Hi & Ht & Hout).
    assert (is_Done g = true) as Hd.
    { rewrite forallb_forall in Hdone. apply Hdone, list_elem_of_In.
      by eapply list_elem_of_lookup_2. }
    destruct g as [gi task [|tn err|tn err]]; try discriminate.
    cbn in *. subst gi. exists tn, err. split_and!; try done. by apply Hout. }
  assert (Hnil : MultiError.ErrorOrNil (merr f) = None
                 ↔ routines f ≫= appended = []).
  { unfold MultiError.ErrorOrNil. split.
    - destruct (MultiError.Errors (merr f)) eqn:He; [| done].
      intros _. by apply Permutation_nil in Hagg.
    - intros Hb. rewrite Hb in Hagg. apply Permutation_nil_r in Hagg.
      by rewrite Hagg. }
  exists (h <$> routines f). split_and!.
  - by rewrite length_fmap.
  - by rewrite Hres, length_fmap.
  - intros i task o Ht. rewrite list_lookup_fmap.
    destruct (routines f !! i) as [g|] eqn:Hg; [| done]. intros [= <-].
    destruct (HA i g Hg) as (tn & err & _ & Ht' & -> & Hw).
    rewrite Ht in Ht'. by injection Ht' as ->.
  - intros i task tn err Ht. rewrite list_lookup_fmap.
    destruct (routines f !! i) as [g|] eqn:Hg; [| done]. intros [= Hh].
    destruct (HA i g Hg) as (tn' & err' & Hgeq & Ht' & Hh' & _).
    rewrite Ht in Ht'. injection Ht' as Ht'.
    rewrite Hh in Hh'. injection Hh' as <- <-.
    rewrite Hres, list_lookup_fmap, Hg. cbn. by rewrite Hgeq, <- Ht'.
  - rewrite Hnil. split.
    + intros Hb o [g [-> Hg]]%list_elem_of_fmap.
      pose proof (bind_nil_inv appended _ g Hb Hg) as Happ.
      apply list_elem_of_lookup in Hg as [i Hg].
      destruct (HA i g Hg) as (tn & err & Hgeq & _ & -> & _).
      rewrite Hgeq, appended_Done in Happ. by destruct err.
    + intros Hall. apply bind_nil_all. intros g Hg.
      pose proof (Hall (h g) (list_elem_of_fmap_2 h _ _ Hg)) as Hn.
      apply list_elem_of_lookup in Hg as [i Hg].
      destruct (HA i g Hg) as (tn & err & Hgeq & _ & Hh & _).
      rewrite Hh in Hn. cbn in Hn. subst err. by rewrite Hgeq, appended_Done.
  - intros i task tn err Ht. rewrite list_lookup_fmap.
    destruct (routines f !! i) as [g|] eqn:Hg; [| done]. intros [= Hh].
    destruct (HA i g Hg) as (tn' & err' & Hgeq & Ht' & Hh' & _).
    rewrite Ht in Ht'. injection Ht' as Ht'.
    rewrite Hh in Hh'. injection Hh' as <- <-.
    rewrite <- Ht' in Hgeq. clear Ht'.
    destruct (appended (mkGoroutine i task (Done tn (Some err)))) as [|e l] eqn:Happ;
      [by rewrite appended_Done in Happ |].
    assert (l = []) as -> by (rewrite appended_Done in Happ; congruence).
    assert (He : e ∈ MultiError.Errors (merr f)).
    { rewrite Hagg. apply list_elem_of_bind. exists g. split.
      - rewrite Hgeq, Happ. by left.
      - by eapply list_elem_of_lookup_2. }
    exists (merr f), e. split_and!; [| done | done].
    unfold MultiError.ErrorOrNil.
    destruct (MultiError.Errors (merr f)); [by apply elem_of_nil in He | done].
  - intros m Hm.
    assert (m = merr f) as ->.
    { unfold MultiError.ErrorOrNil in Hm.
      destruct (MultiError.Errors (merr f)); congruence. }
    rewrite Hagg. clear Hnil Hm Hagg Hres Hlen Hrt Hdone.
    assert (HB : ∀ g, g ∈ routines f →
              length (appended g) = (if bool_decide (is_Some (h g).2) then 1 else 0)%nat).
    { intros g [i Hg]%list_elem_of_lookup.
      destruct (HA i g Hg) as (tn & err & Hgeq & _ & -> & _).
      rewrite Hgeq, appended_Done. by destruct err. }
    clear HA. induction (routines f) as [|g l IH]; [done |].
    rewrite fmap_cons. change ((g :: l) ≫= appended) with (appended g ++ (l ≫= appended)).
    rewrite length_app, HB by (by left). rewrite IH by (intros; apply HB; by right).
    destruct (decide (is_Some (h g).2)) as [Hs|Hs].
    + rewrite filter_cons_True by done. by rewrite bool_decide_eq_true_2.
    + rewrite filter_cons_False by done. by rewrite bool_decide_eq_false_2.
Qed.

(** With a single-create that returns the empty string beside an error, slot
    [i] of the result is what the single-create of item [i] returned. *)
Lemma createMulti_results tasks sched (w : @World W) res agg w' :
  (∀ task w tn e w', create task w = ((tn, Some e), w') → tn = "") →
  createMulti tasks sched w = Some ((res, agg), w') →
  ∃ outcomes : list (string * option error),
    length res = length tasks ∧
    length outcomes = length tasks ∧
    (∀ i task o, tasks !! i = Some task → outcomes !! i = Some o →
       ∃ wi, (create task wi).1 = o) ∧
    (∀ i o, outcomes !! i = Some o → res !! i = Some o.1) ∧
    (agg = None ↔ ∀ o, o ∈ outcomes → o.2 = None) ∧
    (∀ i o, outcomes !! i = Some o → o.2 ≠ None → res !! i = Some "").
Proof.
  intros Hfailed (outcomes & Hlo & Hlr & Htie & Hslot & Hnil & _)%createMulti_spec.
  assert (Hres : ∀ i tn err, outcomes !! i = Some (tn, err) →
            res !! i = Some tn ∧ (err ≠ None → tn = "")).
  { intros i tn err Ho.
    destruct (lookup_lt_is_Some_2 tasks i) as [task Ht].
    { rewrite <- Hlo. by eapply lookup_lt_Some. }
    rewrite (Hslot i task tn err Ht Ho).
    destruct (Htie i task _ Ht Ho) as [wi Hc].
    destruct err as [e|]; [| done].
    assert (tn = "") as ->.
    { destruct (create task wi) as [[tn' err'] w1] eqn:Hcr. cbn in Hc.
      injection Hc as -> ->. by eapply Hfailed. }
    split; [| done]. unfold slot; cbn [g_at].
    destruct (xerrors.As e) as [a|]; [| done].
    by destruct (ErrCode_eqb (Err.Code a) ErrAlreadyExists_Code). }
  exists outcomes. split_and!; try done.
  - intros i [tn err] Ho. by apply Hres in Ho as [-> _].
  - intros i [tn err] Ho Hne. cbn in Hne.
    destruct (Hres i tn err Ho) as [-> Hem]. by rewrite Hem.
Qed.

(** What the aggregate holds for each failed item. *)
Lemma createMulti_failures tasks sched (w : @World W) res agg w' :
  createMulti tasks sched w = Some ((res, agg), w') →
  ∃ outcomes : list (string * option error),
    length outcomes = length tasks ∧
    (∀ i task o, tasks !! i = Some task → outcomes !! i = Some o →
       ∃ wi, (create task wi).1 = o) ∧
    (∀ i task tn err,
       tasks !! i = Some task → outcomes !! i = Some (tn, Some err) →
       ∃ m e,
         agg = Some m ∧ e ∈ MultiError.Errors m ∧
         (classified_AlreadyExists err →
            Err.Code e = AlreadyExists ∧
            Err.KV e !! "index" = Some (AnyInt (Z.of_nat i)) ∧
            ∃ appErr, xerrors.As err = Some appErr ∧
                      e = Err.set_KV "index" (AnyInt (Z.of_nat i)) appErr) ∧
         (¬ classified_AlreadyExists err →
            Err.Code e = CreateMultiTaskFailure ∧
            Err.Message e = message ∧
            Err.KV e !! "index" = Some (AnyInt (Z.of_nat i)) ∧
            Err.KV e !! "taskName" = Some (AnyString (task_Name task)) ∧
            Err.KV e !! "URI" = Some (AnyString (task_RelativeURI task)) ∧
            Err.err e = err)) ∧
    (∀ m, agg = Some m →
       length (MultiError.Errors m)
       = length (filter (λ o, is_Some o.2) outcomes)).
Proof.
  intros (outcomes & Hlo & _ & Htie & _ & _ & Hent & Hcount)%createMulti_spec.
  exists outcomes. split_and!; try done.
  intros i task tn err Ht Ho.
  destruct (Hent i task tn err Ht Ho) as (m & e & Hagg & He & Happ).
  exists m, e. split_and!; try done.
  - intros (a & Has & Hcode).
    rewrite appended_Done, Has in Happ.
    change ErrAlreadyExists_Code with AlreadyExists in Happ.
    rewrite (proj2 (ErrCode_eqb_eq _ _) Hcode) in Happ.
    injection Happ as <-. split_and!.
    + done.
    + apply lookup_insert_eq.
    + by exists a.
  - intros Hnot. rewrite appended_Done in Happ.
    assert (e = NewErrCreateMultiTask message
                  {[ "index" := AnyInt (Z.of_nat i);
                     "taskName" := AnyString (task_Name task);
                     "URI" := AnyString (task_RelativeURI task) ]} err) as ->.
    { destruct (xerrors.As err) as [a|] eqn:Has; [| congruence].
      destruct (ErrCode_eqb (Err.Code a) ErrAlreadyExists_Code) eqn:Hc; [| congruence].
      destruct Hnot. exists a. split; [done |]. by apply ErrCode_eqb_eq. }
    split_and!; done.
Qed.

(** With no input there is no goroutine: the only execution is the empty
    one, and it returns at once. *)
Lemma createMulti_empty sched (w : @World W) :
  createMulti [] [] w = Some (([], None), w) ∧
  ∀ out, createMulti [] sched w = Some out → sched = [] ∧ out = (([], None), w).
Proof.
  split; [done |]. intros out Hout.
  pose proof (createMulti_steps _ _ _ _ Hout) as Hlen.
  destruct sched; [| done]. split; [done |].
  cbv in Hout. congruence.
Qed.

End FanOutFacts.

(** ** The two multi-creates *)

Section MultiFacts.

Context {W : Type}.
Implicit Types (s : @Service W) (w : @World W) (queue : Queue.t).

(** C1: both multi-creates return under every scheduling of their
    goroutines, and whatever the schedule, [CreateJsonPostTaskMulti] and
    [CreateGetTaskMulti] return a slice with one slot per input task; slot i
    holds the name that the single-create of task i returned; the aggregate
    error is nil exactly when no single-create failed; the slot of a failed
    creation is the empty string. *)
Theorem multi_create_results s queue ops :
  ((∀ tasks w, ∃ sched out,
       CreateJsonPostTaskMulti s queue tasks ops sched w = Some out) ∧
   (∀ tasks sched w res agg w',
       CreateJsonPostTaskMulti s queue tasks ops sched w = Some ((res, agg), w') →
       ∃ outcomes : list (string * option error),
         length res = length tasks ∧
         length outcomes = length tasks ∧
         (∀ i task o, tasks !! i = Some task → outcomes !! i = Some o →
            ∃ wi, (CreateJsonPostTask s queue task ops wi).1 = o) ∧
         (∀ i o, outcomes !! i = Some o → res !! i = Some o.1) ∧
         (agg = None ↔ ∀ o, o ∈ outcomes → o.2 = None) ∧
         (∀ i o, outcomes !! i = Some o → o.2 ≠ None → res !! i = Some ""))) ∧
  ((∀ tasks w, ∃ sched out,
       CreateGetTaskMulti s queue tasks ops sched w = Some out) ∧
   (∀ tasks sched w res agg w',
       CreateGetTaskMulti s queue tasks ops sched w = Some ((res, agg), w') →
       ∃ outcomes : list (string * option error),
         length res = length tasks ∧
         length outcomes = length tasks ∧
         (∀ i task o, tasks !! i = Some task → outcomes !! i = Some o →
            ∃ wi, (CreateGetTask s queue task ops wi).1 = o) ∧
         (∀ i o, outcomes !! i = Some o → res !! i = Some o.1) ∧
         (agg = None ↔ ∀ o, o ∈ outcomes → o.2 = None) ∧
         (∀ i o, outcomes !! i = Some o → o.2 ≠ None → res !! i = Some ""))).
Proof.
  split; split.
  - intros tasks w. exact (createMulti_returns _ _ _ _ tasks [] w _ eq_refl).
  - intros tasks sched w res agg w' Hrun.
    eapply createMulti_results; [| exact Hrun].
    intros task w1 tn e w2. apply CreateJsonPostTask_failed.
  - intros tasks w. exact (createMulti_returns _ _ _ _ tasks [] w _ eq_refl).
  - intros tasks sched w res agg w' Hrun.
    eapply createMulti_results; [| exact Hrun].
    intros task w1 tn e w2. apply CreateGetTask_failed.
Qed.

(** C4: in both multi-creates, for every item whose single-create failed the
    aggregate holds an entry.  When the failure is classified AlreadyExists
    the entry is that AlreadyExists error with the item's position stored
    under index; otherwise it is a CreateMultiTaskFailure error that wraps the
    failure and whose context holds the position under index, the task's name
    under taskName and its URI under URI.  The aggregate has as many entries
    as there are failed items. *)
Theorem multi_create_failures s queue ops :
  (∀ tasks sched w res agg w',
      CreateJsonPostTaskMulti s queue tasks ops sched w = Some ((res, agg), w') →
      ∃ outcomes : list (string * option error),
        length outcomes = length tasks ∧
        (∀ i task o, tasks !! i = Some task → outcomes !! i = Some o →
           ∃ wi, (CreateJsonPostTask s queue task ops wi).1 = o) ∧
        (∀ i task tn err,
           tasks !! i = Some task → outcomes !! i = Some (tn, Some err) →
           ∃ m e,
             agg = Some m ∧ e ∈ MultiError.Errors m ∧
             (classified_AlreadyExists err →
                Err.Code e = AlreadyExists ∧
                Err.KV e !! "index" = Some (AnyInt (Z.of_nat i)) ∧
                ∃ appErr, xerrors.As err = Some appErr ∧
                          e = Err.set_KV "index" (AnyInt (Z.of_nat i)) appErr) ∧
             (¬ classified_AlreadyExists err →
                Err.Code e = CreateMultiTaskFailure ∧
                Err.Message e = "failed CreateJsonPostTask" ∧
                Err.KV e !! "index" = Some (AnyInt (Z.of_nat i)) ∧
                Err.KV e !! "taskName" = Some (AnyString (JsonPostTask.Name task)) ∧
                Err.KV e !! "URI" = Some (AnyString (JsonPostTask.RelativeURI task)) ∧
                Err.err e = err)) ∧
        (∀ m, agg = Some m →
           length (MultiError.Errors m)
           = length (filter (λ o, is_Some o.2) outcomes))) ∧
  (∀ tasks sched w res agg w',
      CreateGetTaskMulti s queue tasks ops sched w = Some ((res, agg), w') →
      ∃ outcomes : list (string * option error),
        length outcomes = length tasks ∧
        (∀ i task o, tasks !! i = Some task → outcomes !! i = Some o →
           ∃ wi, (CreateGetTask s queue task ops wi).1 = o) ∧
        (∀ i task tn err,
           tasks !! i = Some task → outcomes !! i = Some (tn, Some err) →
           ∃ m e,
             agg = Some m ∧ e ∈ MultiError.Errors m ∧
             (classified_AlreadyExists err →
                Err.Code e = AlreadyExists ∧
                Err.KV e !! "index" = Some (AnyInt (Z.of_nat i)) ∧
                ∃ appErr, xerrors.As err = Some appErr ∧
                          e = Err.set_KV "index" (AnyInt (Z.of_nat i)) appErr) ∧
             (¬ classified_AlreadyExists err →
                Err.Code e = CreateMultiTaskFailure ∧
                Err.Message e = "failed CreateGetTask" ∧
                Err.KV e !! "index" = Some (AnyInt (Z.of_nat i)) ∧
                Err.KV e !! "taskName" = Some (AnyString (GetTask.Name task)) ∧
                Err.KV e !! "URI" = Some (AnyString (GetTask.RelativeURI task)) ∧
                Err.err e = err)) ∧
        (∀ m, agg = Some m →
           length (MultiError.Errors m)
           = length (filter (λ o, is_Some o.2) outcomes))).
Proof.
  split; intros tasks sched w res agg w' Hrun.
  - exact (createMulti_failures _ _ _ _ _ _ _ _ _ _ Hrun).
  - exact (createMulti_failures _ _ _ _ _ _ _ _ _ _ Hrun).
Qed.

(** C10: on an empty input both multi-creates return an empty slice and a
    nil aggregate error; the only execution takes no step, so no
    single-create runs, and the world (the provider's state and the requests
    sent) is as before. *)
Theorem multi_create_empty s queue ops w :
  (CreateJsonPostTaskMulti s queue [] ops [] w = Some (([], None), w) ∧
   ∀ sched out,
     CreateJsonPostTaskMulti s queue [] ops sched w = Some out →
     sched = [] ∧ out = (([], None), w)) ∧
  (CreateGetTaskMulti s queue [] ops [] w = Some (([], None), w) ∧
   ∀ sched out,
     CreateGetTaskMulti s queue [] ops sched w = Some out →
     sched = [] ∧ out = (([], None), w)).
Proof.
  split; (split; [done |]); intros sched out Hout.
  - by eapply (createMulti_empty _ _ _ _ sched w).
  - by eapply (createMulti_empty _ _ _ _ sched w).
Qed.

End MultiFacts.

(** ** Concrete calls *)


(** The rule for duplicates, on the task named dup sent to a provider that
    already holds it. *)
Lemma CreateTask_already_exists_witness :
  ∃ taskReq msg srv',
    submitted (CreateTask ci_service ci_queue "dup" ping_request time.zero 0%Z [])
      holding_dup = [taskReq] ∧
    taskClient ci_service taskReq (server holding_dup)
    = (inr (StatusError codes.AlreadyExists msg), srv') ∧
    (WithIgnoreAlreadyExists ∈ [] →
       (CreateTask ci_service ci_queue "dup" ping_request time.zero 0%Z []
          holding_dup).1
       = inl (CreateTaskRequest.Task taskReq)) ∧
    (WithIgnoreAlreadyExists ∉ [] →
       ∃ e, (CreateTask ci_service ci_queue "dup" ping_request time.zero 0%Z []
               holding_dup).1 = inr (AppError e) ∧
            Err.Code e = AlreadyExists ∧
            Err.KV e
            = {[ "taskName" := AnyString (Task.Name (CreateTaskRequest.Task taskReq)) ]}) ∧
    ("dup" ≠ "" →
       Task.Name (CreateTaskRequest.Task taskReq)
       = "projects/" +:+ Queue.ProjectID ci_queue +:+ "/locations/"
           +:+ Queue.Region ci_queue +:+ "/queues/" +:+ Queue.Name ci_queue
           +:+ "/tasks/" +:+ "dup").
Proof.
  eexists _, _, _.
  split; [reflexivity |]. split; [reflexivity |].
  eapply (CreateTask_already_exists ci_service ci_queue "dup" ping_request
            time.zero 0%Z [] holding_dup); reflexivity.
Defined.

(** The condition on the provider is needed: a provider that answered
    AlreadyExists to a request without task name would, under the ignore
    option, make each of the three creations succeed with the empty name that
    was built. *)
Lemma ignored_duplicate_unnamed :
  ∃ task,
    (CreateTask (mkService always_exists ci_email) ci_queue "" ping_request
       time.zero 0%Z [WithIgnoreAlreadyExists] (mkWorld tt [])).1 = inl task ∧
    Task.Name task = "" ∧
    (CreateJsonPostTask (mkService always_exists ci_email) ci_queue (hello_task "")
       [WithIgnoreAlreadyExists] (mkWorld tt [])).1 = ("", None) ∧
    (CreateGetTask (mkService always_exists ci_email) ci_queue (ping_task "")
       [WithIgnoreAlreadyExists] (mkWorld tt [])).1 = ("", None).
Proof. eexists. split_and!; reflexivity. Qed.



(** A task scheduled for 10000-01-01T00:00:00Z is refused before any call. *)
Lemma CreateTask_invalid_schedule_time_witness :
  time.IsZero year_10000 = false ∧
  ptypes.TimestampProto year_10000 = inr (PlainError "timestamp: after 10000-01-01") ∧
  ∃ e, CreateTask ci_service ci_queue "late" ping_request year_10000 0%Z [] fresh
       = (inr (AppError e), fresh) ∧
       Err.Code e = InvalidArgument ∧
       Err.KV e !! "ScheduledTime" = Some (AnyTime year_10000) ∧
       submitted (CreateTask ci_service ci_queue "late" ping_request year_10000 0%Z [])
         fresh = [].
Proof.
  split; [reflexivity |]. split; [reflexivity |].
  apply (CreateTask_invalid_schedule_time ci_service ci_queue "late" ping_request
           year_10000 0%Z [] fresh (PlainError "timestamp: after 10000-01-01"));
    reflexivity.
Defined.

(** The name sent for the task named dup. *)
Lemma CreateTask_resource_name_witness :
  dup_request
    ∈ submitted (CreateTask ci_service ci_queue "dup" ping_request time.zero 0%Z [])
        fresh ∧
  ("dup" ≠ "" →
     Task.Name (CreateTaskRequest.Task dup_request)
     = "projects/" +:+ Queue.ProjectID ci_queue +:+ "/locations/"
         +:+ Queue.Region ci_queue +:+ "/queues/" +:+ Queue.Name ci_queue
         +:+ "/tasks/" +:+ "dup") ∧
  ("dup" = "" → Task.Name (CreateTaskRequest.Task dup_request) = "").
Proof.
  split; [by left |].
  apply (CreateTask_resource_name ci_service ci_queue "dup" ping_request
           time.zero 0%Z [] fresh dup_request).
  by left.
Defined.

(** The optional fields sent for an unnamed task with no schedule and a
    deadline of thirty minutes. *)
Lemma CreateTask_optional_fields_witness :
  half_hour_request
    ∈ submitted (CreateTask ci_service ci_queue "" ping_request time.zero
                   (30 * time.Minute)%Z []) fresh ∧
  (Task.ScheduleTime (CreateTaskRequest.Task half_hour_request) = None
   ↔ time.IsZero time.zero = true) ∧
  (Task.DispatchDeadline (CreateTaskRequest.Task half_hour_request) = None
   ↔ (30 * time.Minute)%Z = 0%Z) ∧
  ((30 * time.Minute)%Z ≠ 0%Z →
     Task.DispatchDeadline (CreateTaskRequest.Task half_hour_request)
     = Some (ptypes.DurationProto (30 * time.Minute)%Z)).
Proof.
  split; [by left |].
  apply (CreateTask_optional_fields ci_service ci_queue "" ping_request
           time.zero (30 * time.Minute)%Z [] fresh half_hour_request).
  by left.
Defined.

(** The HTTP request of the JSON task of the package's tests. *)
Lemma CreateJsonPostTask_request_witness :
  ∃ body,
    json.Marshal (JsonPostTask.Body (hello_task "dup")) = inl body ∧
    ∃ req,
      HttpRequest.HttpMethod req = HttpMethod_POST ∧
      HttpRequest.Headers req = {[ "Content-Type" := "application/json" ]} ∧
      HttpRequest.Body req = body ∧
      HttpRequest.AuthorizationHeader req
      = Some (HttpRequest_OidcToken
                (OidcToken.mk (serviceAccountEmail ci_service)
                              (JsonPostTask.Audience (hello_task "dup")))) ∧
      HttpRequest.Url req = JsonPostTask.RelativeURI (hello_task "dup") ∧
      submitted (CreateJsonPostTask ci_service ci_queue (hello_task "dup") []) fresh
      = submitted (CreateTask ci_service ci_queue (JsonPostTask.Name (hello_task "dup"))
                     req (JsonPostTask.ScheduledTime (hello_task "dup"))
                     (JsonPostTask.Deadline (hello_task "dup")) []) fresh ∧
      ∀ taskReq,
        taskReq ∈ submitted (CreateJsonPostTask ci_service ci_queue (hello_task "dup") [])
                    fresh →
        Task.MessageType (CreateTaskRequest.Task taskReq) = Some (Task_HttpRequest req).
Proof.
  eexists. split; [reflexivity |].
  apply (CreateJsonPostTask_request ci_service ci_queue (hello_task "dup") [] fresh).
  reflexivity.
Defined.

(** The results of a batch of four, two goroutines of which reach the
    provider out of the order of the input. *)
Lemma multi_create_results_witness :
  ∃ res agg w',
    CreateJsonPostTaskMulti ci_service ci_queue mixed_batch [] mixed_schedule fresh
    = Some ((res, agg), w') ∧
    ∃ outcomes : list (string * option error),
      length res = length mixed_batch ∧
      length outcomes = length mixed_batch ∧
      (∀ i task o, mixed_batch !! i = Some task → outcomes !! i = Some o →
         ∃ wi, (CreateJsonPostTask ci_service ci_queue task [] wi).1 = o) ∧
      (∀ i o, outcomes !! i = Some o → res !! i = Some o.1) ∧
      (agg = None ↔ ∀ o, o ∈ outcomes → o.2 = None) ∧
      (∀ i o, outcomes !! i = Some o → o.2 ≠ None → res !! i = Some "").
Proof.
  eexists _, _, _. split; [vm_compute; reflexivity |].
  eapply (proj2 (proj1 (multi_create_results ci_service ci_queue []))
            mixed_batch mixed_schedule fresh).
  vm_compute; reflexivity.
Defined.

(** The aggregate of two GET tasks of the same name. *)
Lemma multi_create_failures_witness :
  ∃ res agg w',
    CreateGetTaskMulti ci_service ci_queue ping_batch [] ping_schedule fresh
    = Some ((res, agg), w') ∧
    ∃ outcomes : list (string * option error),
      length outcomes = length ping_batch ∧
      (∀ i task o, ping_batch !! i = Some task → outcomes !! i = Some o →
         ∃ wi, (CreateGetTask ci_service ci_queue task [] wi).1 = o) ∧
      (∀ i task tn err,
         ping_batch !! i = Some task → outcomes !! i = Some (tn, Some err) →
         ∃ m e,
           agg = Some m ∧ e ∈ MultiError.Errors m ∧
           (classified_AlreadyExists err →
              Err.Code e = AlreadyExists ∧
              Err.KV e !! "index" = Some (AnyInt (Z.of_nat i)) ∧
              ∃ appErr, xerrors.As err = Some appErr ∧
                        e = Err.set_KV "index" (AnyInt (Z.of_nat i)) appErr) ∧
           (¬ classified_AlreadyExists err →
              Err.Code e = CreateMultiTaskFailure ∧
              Err.Message e = "failed CreateGetTask" ∧
              Err.KV e !! "index" = Some (AnyInt (Z.of_nat i)) ∧
              Err.KV e !! "taskName" = Some (AnyString (GetTask.Name task)) ∧
              Err.KV e !! "URI" = Some (AnyString (GetTask.RelativeURI task)) ∧
              Err.err e = err)) ∧
      (∀ m, agg = Some m →
         length (MultiError.Errors m)
         = length (filter (λ o, is_Some o.2) outcomes)).
Proof.
  eexists _, _, _. split; [vm_compute; reflexivity |].
  eapply (proj2 (multi_create_failures ci_service ci_queue [])
            ping_batch ping_schedule fresh).
  vm_compute; reflexivity.
Defined.

(** The empty batch of GET tasks. *)
Lemma multi_create_empty_witness :
  ∃ out,
    CreateGetTaskMulti ci_service ci_queue [] [WithIgnoreAlreadyExists] [] fresh
    = Some out ∧
    [] = ([] : list event) ∧ out = (([], None), fresh).
Proof.
  eexists. split; [reflexivity |].
  apply (proj2 (proj2 (multi_create_empty ci_service ci_queue
                          [WithIgnoreAlreadyExists] fresh)) []).
  reflexivity.
Defined.

(** * Further properties *)

(** ** More on the primitive creation *)

Lemma string_app_assoc (a b c : string) : (a +:+ b) +:+ c = a +:+ (b +:+ c).
Proof.
  induction a as [|x a IH]; [reflexivity |].
  change (String x ((a +:+ b) +:+ c) = String x (a +:+ (b +:+ c))). congruence.
Qed.

Lemma Parent_path (q : Queue.t) :
  Queue.Parent q
  = "projects/" +:+ Queue.ProjectID q +:+ "/locations/" +:+ Queue.Region q
      +:+ "/queues/" +:+ Queue.Name q.
Proof. unfold Queue.Parent; cbn. by rewrite string_app_empty_r. Qed.

Section CreateTaskMore.

Context {W : Type}.
Implicit Types (s : @Service W) (w : @World W) (queue : Queue.t).

(** X1: a call of [CreateTask] makes at most one remote call.  It makes none
    exactly when the scheduled time is not zero and does not convert, and
    then the world is as before; otherwise the one request is added after the
    requests sent earlier and the provider's state is what the provider made
    of that request. *)
Theorem CreateTask_one_call s queue taskName req t d ops w :
  (length (submitted (CreateTask s queue taskName req t d ops) w) ≤ 1)%nat ∧
  sent (CreateTask s queue taskName req t d ops w).2
  = sent w ++ submitted (CreateTask s queue taskName req t d ops) w ∧
  (submitted (CreateTask s queue taskName req t d ops) w = []
   ↔ time.IsZero t = false ∧ ∃ err, ptypes.TimestampProto t = inr err) ∧
  (submitted (CreateTask s queue taskName req t d ops) w = [] →
   (CreateTask s queue taskName req t d ops w).2 = w) ∧
  (∀ taskReq,
     submitted (CreateTask s queue taskName req t d ops) w = [taskReq] →
     server (CreateTask s queue taskName req t d ops w).2
     = (taskClient s taskReq (server w)).2).
Proof.
  unfold submitted.
  destruct (CreateTask_cases s queue taskName req t d ops w)
    as [(err & Hz & Hts & ->) | (r & Hconv & _ & _ & _ & _ & _ & ->)];
    cbn [snd sent server].
  - rewrite drop_all, app_nil_r. split_and!; try done; [cbn; lia |].
    split; [intros _; by eauto | done].
  - rewrite drop_app_length. split_and!; try done.
    + split; [done |]. intros [Hz [err Herr]].
      destruct Hconv as [Hz' | [ts Hts]]; congruence.
    + by intros taskReq [= ->].
Qed.

(** X2: the request that [CreateTask] sends is addressed to the queue's
    parent path, carries the HTTP request it was given as it is, and, for a
    scheduled time that is not zero, the timestamp the time converts to. *)
Theorem CreateTask_request_fields s queue taskName req t d ops w taskReq :
  taskReq ∈ submitted (CreateTask s queue taskName req t d ops) w →
  CreateTaskRequest.Parent taskReq = Queue.Parent queue ∧
  Task.MessageType (CreateTaskRequest.Task taskReq) = Some (Task_HttpRequest req) ∧
  (time.IsZero t = false →
   ∃ ts, ptypes.TimestampProto t = inl ts ∧
         Task.ScheduleTime (CreateTaskRequest.Task taskReq) = Some ts).
Proof.
  intros Hin.
  destruct (CreateTask_submitted s queue taskName req t d ops w)
    as [(_ & _ & Hnil) | (r & Hone & Hconv & HP & _ & HM & HS & _)].
  - rewrite Hnil in Hin. by apply elem_of_nil in Hin.
  - rewrite Hone in Hin. apply list_elem_of_singleton in Hin as ->.
    split_and!; [done | done |]. intros Hz. rewrite Hz in HS.
    destruct Hconv as [Hz' | [ts Hts]]; [congruence |].
    exists ts. by rewrite HS, Hts.
Qed.

(** X3: whatever the options, [CreateTask] returns the provider's task when
    the provider accepts, and returns the provider's error as it is when that
    error is not a status AlreadyExists. *)
Theorem CreateTask_passes_answer s queue taskName req t d ops w taskReq :
  submitted (CreateTask s queue taskName req t d ops) w = [taskReq] →
  (∀ task,
     (taskClient s taskReq (server w)).1 = inl task →
     (CreateTask s queue taskName req t d ops w).1 = inl task) ∧
  (∀ err,
     (taskClient s taskReq (server w)).1 = inr err →
     (∀ msg, err ≠ StatusError codes.AlreadyExists msg) →
     (CreateTask s queue taskName req t d ops w).1 = inr (Foreign err)).
Proof.
  intros Hone.
  destruct (CreateTask_cases s queue taskName req t d ops w)
    as [(err & _ & _ & Heq) | (r & _ & _ & _ & _ & _ & _ & Heq)].
  - unfold submitted in Hone. rewrite Heq in Hone. cbn [snd] in Hone.
    by rewrite drop_all in Hone.
  - assert (r = taskReq) as ->.
    { unfold submitted in Hone. rewrite Heq in Hone. cbn [snd sent] in Hone.
      rewrite drop_app_length in Hone. congruence. }
    rewrite Heq. cbn [fst]. split.
    + by intros task ->.
    + intros err -> Hne. destruct err as [c msg|msg]; [| done].
      destruct (codes.eqb c codes.AlreadyExists) eqn:Hc; [| done].
      destruct c; try discriminate. by destruct (Hne msg).
Qed.

(** X4: the options change nothing of what [CreateTask] sends or of the
    world it leaves; they change its result only when the provider answers
    with the status AlreadyExists. *)
Theorem CreateTask_options_scope s queue taskName req t d ops ops' w :
  (CreateTask s queue taskName req t d ops w).2
  = (CreateTask s queue taskName req t d ops' w).2 ∧
  submitted (CreateTask s queue taskName req t d ops) w
  = submitted (CreateTask s queue taskName req t d ops') w ∧
  ((∀ taskReq msg,
      submitted (CreateTask s queue taskName req t d ops) w = [taskReq] →
      (taskClient s taskReq (server w)).1 ≠ inr (StatusError codes.AlreadyExists msg)) →
   (CreateTask s queue taskName req t d ops w).1
   = (CreateTask s queue taskName req t d ops' w).1).
Proof.
  assert (Hw : (CreateTask s queue taskName req t d ops w).2
               = (CreateTask s queue taskName req t d ops' w).2
               ∧ ((∀ taskReq msg,
                     submitted (CreateTask s queue taskName req t d ops) w = [taskReq] →
                     (taskClient s taskReq (server w)).1
                     ≠ inr (StatusError codes.AlreadyExists msg)) →
                  (CreateTask s queue taskName req t d ops w).1
                  = (CreateTask s queue taskName req t d ops' w).1)).
  { unfold submitted.
    destruct (CreateTask_cases s queue taskName req t d ops w)
      as [(err & Hz & Hts & ->) | (r & Hconv & HP & HN & HM & HS & HD & ->)];
      destruct (CreateTask_cases s queue taskName req t d ops' w)
      as [(err' & Hz' & Hts' & ->) | (r' & Hconv' & HP' & HN' & HM' & HS' & HD' & ->)].
    - split; [done |]. intros _. cbn. congruence.
    - destruct Hconv' as [? | [ts ?]]; congruence.
    - destruct Hconv as [? | [ts ?]]; congruence.
    - assert (r = r') as <-.
      { destruct r as [p [n m st dd]], r' as [p' [n' m' st' dd']]. cbn in *. congruence. }
      split; [done |]. cbn [fst snd sent]. rewrite drop_app_length. intros Hno.
      destruct (taskClient s r (server w)) as [[task|[c msg|msg]] srv'] eqn:Hc;
        cbn [fst]; try done.
      destruct (codes.eqb c codes.AlreadyExists) eqn:Hcode; [| done].
      destruct c; try discriminate.
      destruct (Hno r msg eq_refl). by rewrite Hc. }
  destruct Hw as [Hw Hr]. split_and!; [done | | done].
  unfold submitted. by rewrite Hw.
Qed.

(** X5: every error [CreateTask] returns is of one of three kinds: an
    InvalidArgument error that wraps the failed conversion of a scheduled
    time, with nothing sent; an AlreadyExists error that wraps the provider's
    status AlreadyExists, the ignore option not having been passed, with the
    message "<name> is already exists."; or the provider's own error, which
    is not a status AlreadyExists. *)
Theorem CreateTask_error_kinds s queue taskName req t d ops w err :
  (CreateTask s queue taskName req t d ops w).1 = inr err →
  (∃ e cause,
      err = AppError e ∧ Err.Code e = InvalidArgument ∧
      time.IsZero t = false ∧ ptypes.TimestampProto t = inr cause ∧
      Err.err e = Foreign cause ∧
      submitted (CreateTask s queue taskName req t d ops) w = [])
  ∨ (∃ e taskReq msg,
      err = AppError e ∧ Err.Code e = AlreadyExists ∧
      submitted (CreateTask s queue taskName req t d ops) w = [taskReq] ∧
      (taskClient s taskReq (server w)).1 = inr (StatusError codes.AlreadyExists msg) ∧
      (WithIgnoreAlreadyExists ∉ ops) ∧
      Err.err e = Foreign (StatusError codes.AlreadyExists msg) ∧
      Err.Message e
      = Task.Name (CreateTaskRequest.Task taskReq) +:+ " is already exists." ∧
      Err.KV e
      = {[ "taskName" := AnyString (Task.Name (CreateTaskRequest.Task taskReq)) ]})
  ∨ (∃ cause taskReq,
      err = Foreign cause ∧
      submitted (CreateTask s queue taskName req t d ops) w = [taskReq] ∧
      (taskClient s taskReq (server w)).1 = inr cause ∧
      ∀ msg, cause ≠ StatusError codes.AlreadyExists msg).
Proof.
  unfold submitted.
  destruct (CreateTask_cases s queue taskName req t d ops w)
    as [(cause & Hz & Hts & ->) | (r & _ & _ & _ & _ & _ & _ & ->)];
    cbn [fst snd sent].
  - intros [= <-]. left. eexists _, cause.
    rewrite drop_all. by split_and!.
  - rewrite drop_app_length.
    destruct (taskClient s r (server w)) as [[task|[c msg|msg]] srv'] eqn:Hc;
      cbn [fst]; [done | |].
    + destruct (codes.eqb c codes.AlreadyExists) eqn:Hcode.
      * destruct c; try discriminate.
        destruct (bool_decide (WithIgnoreAlreadyExists ∈ ops)) eqn:Hi; [done |].
        apply bool_decide_eq_false in Hi.
        intros [= <-]. right; left. eexists _, r, msg.
        split_and!; try done. by rewrite Hc.
      * intros [= <-]. right; right. exists (StatusError c msg), r.
        split_and!; try done; [by rewrite Hc |]. intros msg' [= -> _]. discriminate.
    + intros [= <-]. right; right. exists (PlainError msg), r.
      split_and!; try done. by rewrite Hc.
Qed.

(** X6: the name [CreateTask] sends for a named task is the parent path of
    the same request, followed by /tasks/ and the task name. *)
Theorem CreateTask_name_under_parent s queue taskName req t d ops w taskReq :
  taskReq ∈ submitted (CreateTask s queue taskName req t d ops) w →
  taskName ≠ "" →
  Task.Name (CreateTaskRequest.Task taskReq)
  = CreateTaskRequest.Parent taskReq +:+ "/tasks/" +:+ taskName.
Proof.
  intros Hin Hne.
  destruct (CreateTask_submitted s queue taskName req t d ops w)
    as [(_ & _ & Hnil) | (r & Hone & _ & HP & HN & _)].
  - rewrite Hnil in Hin. by apply elem_of_nil in Hin.
  - rewrite Hone in Hin. apply list_elem_of_singleton in Hin as ->.
    rewrite HN, HP, bool_decide_eq_false_2 by done.
    rewrite task_name_format, Parent_path.
    by rewrite !string_app_assoc.
Qed.

End CreateTaskMore.

(** ** Resource names and durations *)

Lemma split_at_slash (a a' t t' : string) :
  no_slash a = true → no_slash a' = true →
  a +:+ String "/" t = a' +:+ String "/" t' → a = a' ∧ t = t'.
Proof.
  revert a'; induction a as [|c a IH]; intros [|c' a'] Ha Ha' Heq.
  - by injection Heq as ->.
  - injection Heq as <- _. cbn in Ha'. discriminate.
  - injection Heq as -> _. cbn in Ha. discriminate.
  - injection Heq as -> Heq. cbn in Ha, Ha'.
    apply andb_prop in Ha as [_ Ha], Ha' as [_ Ha'].
    destruct (IH a' Ha Ha' Heq) as [-> ->]. done.
Qed.

(** X7: queues whose project and region hold no [/] have the same parent
    path only when they are the same queue. *)
Theorem Parent_injective (q q' : Queue.t) :
  no_slash (Queue.ProjectID q) = true → no_slash (Queue.Region q) = true →
  no_slash (Queue.ProjectID q') = true → no_slash (Queue.Region q') = true →
  Queue.Parent q = Queue.Parent q' → q = q'.
Proof.
  intros HP HR HP' HR'. rewrite !Parent_path.
  destruct q as [P R N], q' as [P' R' N']; cbn in *.
  intros [= Heq].
  apply split_at_slash in Heq as [-> [= Heq]]; [| done | done].
  apply split_at_slash in Heq as [-> [= ->]]; done.
Qed.

(** X8: for queues whose project, region and name hold no [/], two named
    tasks are sent under the same resource name only when they have the same
    queue and the same task name: the name sent identifies the task. *)
Theorem task_name_identifies {W W' : Type}
    (s : @Service W) (s' : @Service W') queue queue' taskName taskName'
    req req' t t' d d' ops ops' w w' taskReq taskReq' :
  no_slash (Queue.ProjectID queue) = true → no_slash (Queue.Region queue) = true →
  no_slash (Queue.Name queue) = true →
  no_slash (Queue.ProjectID queue') = true → no_slash (Queue.Region queue') = true →
  no_slash (Queue.Name queue') = true →
  taskName ≠ "" → taskName' ≠ "" →
  taskReq ∈ submitted (CreateTask s queue taskName req t d ops) w →
  taskReq' ∈ submitted (CreateTask s' queue' taskName' req' t' d' ops') w' →
  Task.Name (CreateTaskRequest.Task taskReq)
  = Task.Name (CreateTaskRequest.Task taskReq') →
  queue = queue' ∧ taskName = taskName'.
Proof.
  intros HP HR HN HP' HR' HN' Hne Hne' Hin Hin'.
  destruct (CreateTask_submitted s queue taskName req t d ops w)
    as [(_ & _ & Hnil) | (r & Hone & _ & _ & Hname & _)];
    [rewrite Hnil in Hin; by apply elem_of_nil in Hin |].
  destruct (CreateTask_submitted s' queue' taskName' req' t' d' ops' w')
    as [(_ & _ & Hnil) | (r' & Hone' & _ & _ & Hname' & _)];
    [rewrite Hnil in Hin'; by apply elem_of_nil in Hin' |].
  rewrite Hone in Hin. apply list_elem_of_singleton in Hin as ->.
  rewrite Hone' in Hin'. apply list_elem_of_singleton in Hin' as ->.
  rewrite Hname, Hname', !bool_decide_eq_false_2, !task_name_format by done.
  destruct queue as [P R N], queue' as [P' R' N']; cbn in *.
  intros [= Heq].
  apply split_at_slash in Heq as [-> [= Heq]]; [| done | done].
  apply split_at_slash in Heq as [-> [= Heq]]; [| done | done].
  apply split_at_slash in Heq as [-> [= ->]]; done.
Qed.

Lemma wrap32_small (z : Z) : (- 2 ^ 31 ≤ z < 2 ^ 31)%Z → wrap32 z = z.
Proof. intros Hz. unfold wrap32. rewrite Z.mod_small; lia. Qed.

(** X9: the dispatch deadline that [CreateTask] sends for a non-zero
    deadline stands for the same number of nanoseconds: its seconds times
    10^9 plus its nanos is the deadline, the nanos staying below a second and
    on the deadline's side of zero. *)
Theorem CreateTask_deadline_exact {W : Type} (s : @Service W) queue taskName
    req t d ops w taskReq :
  taskReq ∈ submitted (CreateTask s queue taskName req t d ops) w →
  d ≠ 0%Z →
  ∃ dp,
    Task.DispatchDeadline (CreateTaskRequest.Task taskReq) = Some dp ∧
    (ptypes.dSeconds dp * 1000000000 + ptypes.dNanos dp = d)%Z ∧
    (Z.abs (ptypes.dNanos dp) < 1000000000)%Z ∧
    (0 ≤ d → 0 ≤ ptypes.dSeconds dp ∧ 0 ≤ ptypes.dNanos dp)%Z ∧
    (d ≤ 0 → ptypes.dSeconds dp ≤ 0 ∧ ptypes.dNanos dp ≤ 0)%Z.
Proof.
  intros Hin Hd.
  destruct (CreateTask_submitted s queue taskName req t d ops w)
    as [(_ & _ & Hnil) | (r & Hone & _ & _ & _ & _ & _ & HD)];
    [rewrite Hnil in Hin; by apply elem_of_nil in Hin |].
  rewrite Hone in Hin. apply list_elem_of_singleton in Hin as ->.
  rewrite HD, bool_decide_eq_false_2 by done.
  eexists; split; [reflexivity |].
  unfold ptypes.DurationProto; cbn [ptypes.dSeconds ptypes.dNanos].
  pose proof (Z.quot_rem' d 1000000000) as Hqr.
  pose proof (Z.rem_bound_abs d 1000000000 ltac:(lia)) as Hb.
  assert (Hrem : (d - d ÷ 1000000000 * 1000000000 = Z.rem d 1000000000)%Z) by lia.
  rewrite Hrem, wrap32_small by lia.
  split_and!; [lia | lia | |].
  - intros Hp. pose proof (Z.quot_pos d 1000000000 Hp ltac:(lia)).
    pose proof (Z.rem_nonneg d 1000000000 ltac:(lia) Hp). lia.
  - intros Hn. pose proof (Z.rem_nonpos d 1000000000 ltac:(lia) Hn).
    assert (d ÷ 1000000000 ≤ 0)%Z; [| lia].
    rewrite <- (Z.opp_involutive d), Z.quot_opp_l by lia.
    pose proof (Z.quot_pos (- d) 1000000000 ltac:(lia) ltac:(lia)). lia.
Qed.

(** ** More on the typed creations *)

Section TypedCreateMore.

Context {W : Type}.
Implicit Types (s : @Service W) (w : @World W) (queue : Queue.t).

(** When [CreateTask] fails with an error classified AlreadyExists, and what
    that error then holds. *)
Lemma CreateTask_classified s queue taskName req t d ops w err :
  (CreateTask s queue taskName req t d ops w).1 = inr err →
  (classified_AlreadyExists err
   ↔ (WithIgnoreAlreadyExists ∉ ops) ∧
     ∃ taskReq msg,
       submitted (CreateTask s queue taskName req t d ops) w = [taskReq] ∧
       (taskClient s taskReq (server w)).1
       = inr (StatusError codes.AlreadyExists msg)) ∧
  (∀ appErr,
     xerrors.As err = Some appErr → Err.Code appErr = AlreadyExists →
     ∃ taskReq,
       submitted (CreateTask s queue taskName req t d ops) w = [taskReq] ∧
       Err.KV appErr
       = {[ "taskName" := AnyString (Task.Name (CreateTaskRequest.Task taskReq)) ]}).
Proof.
  unfold submitted, classified_AlreadyExists.
  destruct (CreateTask_cases s queue taskName req t d ops w)
    as [(cause & Hz & Hts & ->) | (r & _ & _ & _ & _ & _ & _ & ->)];
    cbn [fst snd sent].
  - intros [= <-]. rewrite drop_all. cbn. split.
    + split; [intros (a & [= <-] & Hc); cbn in Hc; discriminate |].
      intros (_ & r & msg & [=] & _).
    + intros a [= <-] Hc. cbn in Hc. discriminate.
  - rewrite drop_app_length.
    destruct (taskClient s r (server w)) as [[task|[c msg|msg]] srv'] eqn:Hc;
      cbn [fst]; [done | |].
    + destruct (codes.eqb c codes.AlreadyExists) eqn:Hcode.
      * destruct c; try discriminate.
        destruct (bool_decide (WithIgnoreAlreadyExists ∈ ops)) eqn:Hi; [done |].
        apply bool_decide_eq_false in Hi.
        intros [= <-]. cbn. split.
        -- split; [| intros _; eexists; split; reflexivity].
           intros _. split; [done |]. exists r, msg. by rewrite Hc.
        -- intros a [= <-] _. by exists r.
      * intros [= <-]. cbn. split.
        -- split; [intros (a & [=] & _) |].
           intros (_ & r' & msg' & [= <-] & Hr). rewrite Hc in Hr.
           injection Hr as -> _. discriminate.
        -- intros a [=].
    + intros [= <-]. cbn. split.
      * split; [intros (a & [=] & _) |].
        intros (_ & r' & msg' & [= <-] & Hr). by rewrite Hc in Hr.
      * intros a [=].
Qed.

(** What a success of [CreateTask] stands for. *)
Lemma CreateTask_success s queue taskName req t d ops w task :
  (CreateTask s queue taskName req t d ops w).1 = inl task →
  ∃ taskReq,
    submitted (CreateTask s queue taskName req t d ops) w = [taskReq] ∧
    ((taskClient s taskReq (server w)).1 = inl task
     ∨ (WithIgnoreAlreadyExists ∈ ops ∧
        task = CreateTaskRequest.Task taskReq ∧
        ∃ msg, (taskClient s taskReq (server w)).1
               = inr (StatusError codes.AlreadyExists msg))).
Proof.
  unfold submitted.
  destruct (CreateTask_cases s queue taskName req t d ops w)
    as [(cause & Hz & Hts & ->) | (r & _ & _ & _ & _ & _ & _ & ->)];
    cbn [fst snd sent]; [done |].
  rewrite drop_app_length. intros Hres. exists r. split; [done |].
  destruct (taskClient s r (server w)) as [[got|[c msg|msg]] srv'] eqn:Hc;
    cbn [fst] in *.
  - left. congruence.
  - destruct (codes.eqb c codes.AlreadyExists) eqn:Hcode; [| done].
    destruct c; try discriminate.
    destruct (bool_decide (WithIgnoreAlreadyExists ∈ ops)) eqn:Hi; [| done].
    apply bool_decide_eq_true in Hi. right. injection Hres as <-. eauto.
  - done.
Qed.

(** A body that does not serialize stops [CreateJsonPostTask] at once. *)
Lemma CreateJsonPostTask_marshal_failed s queue task ops w err :
  json.Marshal (JsonPostTask.Body task) = inr err →
  CreateJsonPostTask s queue task ops w
  = (("", Some (WrapError "failed json.Marshal(). body=%+v : %w"
                  [json.show (JsonPostTask.Body task)] (Foreign err))), w) ∧
  submitted (CreateJsonPostTask s queue task ops) w = [].
Proof.
  intros Hm. unfold submitted, CreateJsonPostTask. rewrite Hm.
  cbn [mret M_ret snd]. split; [reflexivity | by rewrite drop_all].
Qed.

(** X10: when the body of a JsonPostTask does not serialize,
    [CreateJsonPostTask] returns the empty string and an error that wraps the
    serializer's error and holds no error of this package; nothing is sent
    and the world is as before. *)
Theorem CreateJsonPostTask_marshal_failure s queue task ops w err :
  json.Marshal (JsonPostTask.Body task) = inr err →
  ∃ e, CreateJsonPostTask s queue task ops w = (("", Some e), w) ∧
       e = WrapError "failed json.Marshal(). body=%+v : %w"
             [json.show (JsonPostTask.Body task)] (Foreign err) ∧
       xerrors.As e = None ∧
       ¬ classified_AlreadyExists e ∧
       submitted (CreateJsonPostTask s queue task ops) w = [].
Proof.
  intros Hm. eexists. unfold submitted, CreateJsonPostTask. rewrite Hm.
  cbn [mret M_ret snd]. split_and!; try reflexivity.
  - intros (a & [=] & _).
  - by rewrite drop_all.
Qed.

(** X11: [CreateGetTask] hands [CreateTask] an HTTP request with the method
    GET, the task's headers as they are, no body, the task's URI, and an OIDC
    token made of the service's account email and the task's Audience; what
    it sends is what that call of [CreateTask] sends, and every request sent
    carries this HTTP request. *)
Theorem CreateGetTask_request s queue task ops w :
  ∃ req,
    HttpRequest.HttpMethod req = HttpMethod_GET ∧
    HttpRequest.Headers req = GetTask.Headers task ∧
    HttpRequest.Body req = [] ∧
    HttpRequest.AuthorizationHeader req
    = Some (HttpRequest_OidcToken
              (OidcToken.mk (serviceAccountEmail s) (GetTask.Audience task))) ∧
    HttpRequest.Url req = GetTask.RelativeURI task ∧
    submitted (CreateGetTask s queue task ops) w
    = submitted (CreateTask s queue (GetTask.Name task) req
                   (GetTask.ScheduledTime task) (GetTask.Deadline task) ops) w ∧
    ∀ taskReq,
      taskReq ∈ submitted (CreateGetTask s queue task ops) w →
      Task.MessageType (CreateTaskRequest.Task taskReq) = Some (Task_HttpRequest req).
Proof.
  eexists (HttpRequest.mk _ _ _ _ _).
  assert (Hsub : submitted (CreateGetTask s queue task ops) w
               = submitted (CreateTask s queue (GetTask.Name task)
                   (HttpRequest.mk (GetTask.RelativeURI task) HttpMethod_GET
                      (GetTask.Headers task) []
                      (Some (HttpRequest_OidcToken
                               (OidcToken.mk (serviceAccountEmail s)
                                             (GetTask.Audience task)))))
                   (GetTask.ScheduledTime task) (GetTask.Deadline task) ops) w).
  { unfold submitted. by rewrite CreateGetTask_unfold. }
  split_and!; try reflexivity; [exact Hsub |].
  intros taskReq. rewrite Hsub. intros Hin.
  destruct (CreateTask_submitted s queue (GetTask.Name task)
              (HttpRequest.mk (GetTask.RelativeURI task) HttpMethod_GET
                 (GetTask.Headers task) []
                 (Some (HttpRequest_OidcToken
                          (OidcToken.mk (serviceAccountEmail s)
                                        (GetTask.Audience task)))))
              (GetTask.ScheduledTime task) (GetTask.Deadline task) ops w)
    as [(_ & _ & Hnil) | (r & Hone & _ & _ & _ & HM & _)].
  - rewrite Hnil in Hin. by apply elem_of_nil in Hin.
  - rewrite Hone in Hin. by apply list_elem_of_singleton in Hin as ->.
Qed.

Lemma CreateJsonPostTask_classified s queue ops task w tn e :
  (CreateJsonPostTask s queue task ops w).1 = (tn, Some e) →
  (classified_AlreadyExists e
   ↔ (WithIgnoreAlreadyExists ∉ ops) ∧
     ∃ taskReq msg,
       submitted (CreateJsonPostTask s queue task ops) w = [taskReq] ∧
       (taskClient s taskReq (server w)).1
       = inr (StatusError codes.AlreadyExists msg)) ∧
  (∀ appErr,
     xerrors.As e = Some appErr → Err.Code appErr = AlreadyExists →
     ∃ taskReq,
       submitted (CreateJsonPostTask s queue task ops) w = [taskReq] ∧
       Err.KV appErr
       = {[ "taskName" := AnyString (Task.Name (CreateTaskRequest.Task taskReq)) ]}).
Proof.
  destruct (json.Marshal (JsonPostTask.Body task)) as [body|err] eqn:Hm.
  - unfold submitted. rewrite (CreateJsonPostTask_marshalled _ _ _ _ _ body Hm).
    cbn zeta. cbn [fst snd].
    destruct (CreateTask _ _ _ _ _ _ _ _).1 as [got|err] eqn:Hc; [done |].
    intros [= <- <-]. exact (CreateTask_classified _ _ _ _ _ _ _ _ _ Hc).
  - destruct (CreateJsonPostTask_marshal_failed s queue task ops w err Hm)
      as (-> & Hsub).
    cbn [fst]. intros [= <- <-]. rewrite Hsub. split.
    + split; [intros (a & [=] & _) |]. intros (_ & r & msg & [=] & _).
    + intros a [=].
Qed.

Lemma CreateGetTask_classified s queue ops task w tn e :
  (CreateGetTask s queue task ops w).1 = (tn, Some e) →
  (classified_AlreadyExists e
   ↔ (WithIgnoreAlreadyExists ∉ ops) ∧
     ∃ taskReq msg,
       submitted (CreateGetTask s queue task ops) w = [taskReq] ∧
       (taskClient s taskReq (server w)).1
       = inr (StatusError codes.AlreadyExists msg)) ∧
  (∀ appErr,
     xerrors.As e = Some appErr → Err.Code appErr = AlreadyExists →
     ∃ taskReq,
       submitted (CreateGetTask s queue task ops) w = [taskReq] ∧
       Err.KV appErr
       = {[ "taskName" := AnyString (Task.Name (CreateTaskRequest.Task taskReq)) ]}).
Proof.
  unfold submitted. rewrite CreateGetTask_unfold. cbn zeta. cbn [fst snd].
  destruct (CreateTask _ _ _ _ _ _ _ _).1 as [got|err] eqn:Hc; [done |].
  intros [= <- <-]. exact (CreateTask_classified _ _ _ _ _ _ _ _ _ Hc).
Qed.

(** The name and the number of the requests a single-create sends. *)
Lemma CreateJsonPostTask_sent s queue ops task w :
  (∃ l, sent (CreateJsonPostTask s queue task ops w).2 = sent w ++ l ∧
        (length l ≤ 1)%nat) ∧
  ∀ taskReq,
    taskReq ∈ submitted (CreateJsonPostTask s queue task ops) w →
    Task.Name (CreateTaskRequest.Task taskReq)
    = (if bool_decide (JsonPostTask.Name task = "") then ""
       else fmt.Sprintf "projects/%s/locations/%s/queues/%s/tasks/%s"
              [Queue.ProjectID queue; Queue.Region queue; Queue.Name queue;
               JsonPostTask.Name task]).
Proof.
  destruct (json.Marshal (JsonPostTask.Body task)) as [body|err] eqn:Hm.
  - unfold submitted. rewrite (CreateJsonPostTask_marshalled _ _ _ _ _ body Hm).
    cbn zeta. cbn [snd].
    destruct (CreateTask_cases s queue (JsonPostTask.Name task)
                (HttpRequest.mk (JsonPostTask.RelativeURI task) HttpMethod_POST
                   {[ "Content-Type" := "application/json" ]} body
                   (Some (HttpRequest_OidcToken
                            (OidcToken.mk (serviceAccountEmail s)
                                          (JsonPostTask.Audience task)))))
                (JsonPostTask.ScheduledTime task) (JsonPostTask.Deadline task) ops w)
      as [(cause & _ & _ & ->) | (r & _ & _ & HN & _ & _ & _ & ->)];
      cbn [snd sent].
    + split; [exists []; split; [by rewrite app_nil_r | cbn; lia] |].
      intros taskReq. rewrite drop_all. by intros ?%elem_of_nil.
    + split; [exists [r]; split; [done | cbn; lia] |].
      intros taskReq. rewrite drop_app_length. by intros ->%list_elem_of_singleton.
  - destruct (CreateJsonPostTask_marshal_failed s queue task ops w err Hm)
      as (-> & Hsub).
    cbn [snd]. split; [exists []; split; [by rewrite app_nil_r | cbn; lia] |].
    intros taskReq. rewrite Hsub. by intros ?%elem_of_nil.
Qed.

Lemma CreateGetTask_sent s queue ops task w :
  (∃ l, sent (CreateGetTask s queue task ops w).2 = sent w ++ l ∧
        (length l ≤ 1)%nat) ∧
  ∀ taskReq,
    taskReq ∈ submitted (CreateGetTask s queue task ops) w →
    Task.Name (CreateTaskRequest.Task taskReq)
    = (if bool_decide (GetTask.Name task = "") then ""
       else fmt.Sprintf "projects/%s/locations/%s/queues/%s/tasks/%s"
              [Queue.ProjectID queue; Queue.Region queue; Queue.Name queue;
               GetTask.Name task]).
Proof.
  unfold submitted. rewrite CreateGetTask_unfold. cbn zeta. cbn [snd].
  destruct (CreateTask_cases s queue (GetTask.Name task)
              (HttpRequest.mk (GetTask.RelativeURI task) HttpMethod_GET
                 (GetTask.Headers task) []
                 (Some (HttpRequest_OidcToken
                          (OidcToken.mk (serviceAccountEmail s)
                                        (GetTask.Audience task)))))
              (GetTask.ScheduledTime task) (GetTask.Deadline task) ops w)
    as [(cause & _ & _ & ->) | (r & _ & _ & HN & _ & _ & _ & ->)];
    cbn [snd sent].
  - split; [exists []; split; [by rewrite app_nil_r | cbn; lia] |].
    intros taskReq. rewrite drop_all. by intros ?%elem_of_nil.
  - split; [exists [r]; split; [done | cbn; lia] |].
    intros taskReq. rewrite drop_app_length. by intros ->%list_elem_of_singleton.
Qed.

(** X12: a failure of [CreateJsonPostTask] or of [CreateGetTask] is
    classified AlreadyExists exactly when the ignore option was not passed
    and the provider answered the request sent with the status AlreadyExists;
    the AlreadyExists error found under the wrapper then maps taskName to the
    name sent. *)
Theorem single_create_already_exists s queue ops :
  (∀ task w tn e,
     (CreateJsonPostTask s queue task ops w).1 = (tn, Some e) →
     (classified_AlreadyExists e
      ↔ (WithIgnoreAlreadyExists ∉ ops) ∧
        ∃ taskReq msg,
          submitted (CreateJsonPostTask s queue task ops) w = [taskReq] ∧
          (taskClient s taskReq (server w)).1
          = inr (StatusError codes.AlreadyExists msg)) ∧
     (∀ appErr,
        xerrors.As e = Some appErr → Err.Code appErr = AlreadyExists →
        ∃ taskReq,
          submitted (CreateJsonPostTask s queue task ops) w = [taskReq] ∧
          Err.KV appErr
          = {[ "taskName" := AnyString (Task.Name (CreateTaskRequest.Task taskReq)) ]})) ∧
  (∀ task w tn e,
     (CreateGetTask s queue task ops w).1 = (tn, Some e) →
     (classified_AlreadyExists e
      ↔ (WithIgnoreAlreadyExists ∉ ops) ∧
        ∃ taskReq msg,
          submitted (CreateGetTask s queue task ops) w = [taskReq] ∧
          (taskClient s taskReq (server w)).1
          = inr (StatusError codes.AlreadyExists msg)) ∧
     (∀ appErr,
        xerrors.As e = Some appErr → Err.Code appErr = AlreadyExists →
        ∃ taskReq,
          submitted (CreateGetTask s queue task ops) w = [taskReq] ∧
          Err.KV appErr
          = {[ "taskName" := AnyString (Task.Name (CreateTaskRequest.Task taskReq)) ]})).
Proof.
  split; intros task w tn e.
  - apply CreateJsonPostTask_classified.
  - apply CreateGetTask_classified.
Qed.

(** X13: a success of [CreateJsonPostTask] or of [CreateGetTask] has sent
    exactly one request, and the identifier returned is the name of the task
    the provider answered with, or, under the ignore option after a status
    AlreadyExists, the name that was sent. *)
Theorem single_create_success s queue ops :
  (∀ task w tn,
     (CreateJsonPostTask s queue task ops w).1 = (tn, None) →
     ∃ taskReq,
       submitted (CreateJsonPostTask s queue task ops) w = [taskReq] ∧
       ((∃ got, (taskClient s taskReq (server w)).1 = inl got ∧ tn = Task.Name got)
        ∨ (WithIgnoreAlreadyExists ∈ ops ∧
           tn = Task.Name (CreateTaskRequest.Task taskReq) ∧
           ∃ msg, (taskClient s taskReq (server w)).1
                  = inr (StatusError codes.AlreadyExists msg)))) ∧
  (∀ task w tn,
     (CreateGetTask s queue task ops w).1 = (tn, None) →
     ∃ taskReq,
       submitted (CreateGetTask s queue task ops) w = [taskReq] ∧
       ((∃ got, (taskClient s taskReq (server w)).1 = inl got ∧ tn = Task.Name got)
        ∨ (WithIgnoreAlreadyExists ∈ ops ∧
           tn = Task.Name (CreateTaskRequest.Task taskReq) ∧
           ∃ msg, (taskClient s taskReq (server w)).1
                  = inr (StatusError codes.AlreadyExists msg)))).
Proof.
  split; intros task w tn.
  - destruct (json.Marshal (JsonPostTask.Body task)) as [body|err] eqn:Hm.
    + unfold submitted. rewrite (CreateJsonPostTask_marshalled _ _ _ _ _ body Hm).
      cbn zeta. cbn [fst snd].
      destruct (CreateTask _ _ _ _ _ _ _ _).1 as [got|err] eqn:Hc; [| done].
      intros [= <-].
      destruct (CreateTask_success _ _ _ _ _ _ _ _ _ Hc)
        as (r & Hone & [Hok | (Hi & -> & msg & Hrej)]);
        exists r; (split; [exact Hone |]); [left; by exists got | right; eauto].
    + destruct (CreateJsonPostTask_marshal_failed s queue task ops w err Hm)
        as (-> & _). done.
  - unfold submitted. rewrite CreateGetTask_unfold. cbn zeta. cbn [fst snd].
    destruct (CreateTask _ _ _ _ _ _ _ _).1 as [got|err] eqn:Hc; [| done].
    intros [= <-].
    destruct (CreateTask_success _ _ _ _ _ _ _ _ _ Hc)
      as (r & Hone & [Hok | (Hi & -> & msg & Hrej)]);
      exists r; (split; [exact Hone |]); [left; by exists got | right; eauto].
Qed.

(** X19: a schedule time that [CreateTask] sends is a timestamp the provider
    can hold: its seconds lie between the years 1 and 9999 and its nanos
    within a second; it is sent only for a scheduled time that is not zero,
    and its seconds are the Unix seconds of that time. *)
Theorem CreateTask_schedule_valid s queue taskName req t d ops w taskReq ts :
  taskReq ∈ submitted (CreateTask s queue taskName req t d ops) w →
  Task.ScheduleTime (CreateTaskRequest.Task taskReq) = Some ts →
  (ptypes.minValidSeconds ≤ ptypes.Seconds ts < ptypes.maxValidSeconds)%Z ∧
  (0 ≤ ptypes.Nanos ts < 1000000000)%Z ∧
  time.IsZero t = false ∧
  ptypes.Seconds ts = time.Unix t.
Proof.
  intros Hin Hts.
  destruct (CreateTask_submitted s queue taskName req t d ops w)
    as [(_ & _ & Hnil) | (r & Hone & _ & _ & _ & _ & HS & _)];
    [rewrite Hnil in Hin; by apply elem_of_nil in Hin |].
  rewrite Hone in Hin. apply list_elem_of_singleton in Hin as ->.
  rewrite HS in Hts. destruct (time.IsZero t); [done |].
  unfold ptypes.TimestampProto, ptypes.validateTimestamp in Hts.
  cbn [ptypes.Seconds ptypes.Nanos] in Hts.
  destruct (Z.ltb_spec (time.Unix t) ptypes.minValidSeconds); [done |].
  destruct (Z.leb_spec ptypes.maxValidSeconds (time.Unix t)); [done |].
  destruct (Z.ltb_spec (wrap32 (time.Nanosecond t)) 0); [done |].
  destruct (Z.leb_spec 1000000000 (wrap32 (time.Nanosecond t))); [done |].
  cbn in Hts. injection Hts as <-. cbn [ptypes.Seconds ptypes.Nanos].
  split_and!; done || lia.
Qed.

Lemma CreateTask_named s queue taskName req t d ops w task :
  keeps_names (taskClient s) → taskName ≠ "" →
  (CreateTask s queue taskName req t d ops w).1 = inl task →
  Task.Name task
  = "projects/" +:+ Queue.ProjectID queue +:+ "/locations/"
      +:+ Queue.Region queue +:+ "/queues/" +:+ Queue.Name queue
      +:+ "/tasks/" +:+ taskName.
Proof.
  intros Hkeep Hne.
  destruct (CreateTask_cases s queue taskName req t d ops w)
    as [(err & _ & _ & ->) | (r & _ & _ & HN & _ & _ & _ & ->)]; [done |].
  rewrite bool_decide_eq_false_2, task_name_format in HN by done.
  destruct (taskClient s r (server w)) as [[got|[c msg|msg]] srv'] eqn:Hc;
    cbn [fst].
  - intros [= <-]. rewrite <- HN. eapply Hkeep; [exact Hc |].
    rewrite HN. discriminate.
  - destruct (codes.eqb c codes.AlreadyExists); [| done].
    destruct (bool_decide (WithIgnoreAlreadyExists ∈ ops)); [| done].
    by intros [= <-].
  - done.
Qed.

(** X20: with a provider that keeps the names it is given, every success of
    a named creation returns the resource name
    projects/P/locations/R/queues/N/tasks/T built from the queue and the task
    name, whether the provider created the task or, under the ignore option,
    reported that it exists: under that option creating a named task twice
    returns the same identifier twice. *)
Theorem created_name_of_named_task s queue ops :
  keeps_names (taskClient s) →
  (∀ taskName req t d w task,
     taskName ≠ "" →
     (CreateTask s queue taskName req t d ops w).1 = inl task →
     Task.Name task
     = "projects/" +:+ Queue.ProjectID queue +:+ "/locations/"
         +:+ Queue.Region queue +:+ "/queues/" +:+ Queue.Name queue
         +:+ "/tasks/" +:+ taskName) ∧
  (∀ task w tn,
     JsonPostTask.Name task ≠ "" →
     (CreateJsonPostTask s queue task ops w).1 = (tn, None) →
     tn = "projects/" +:+ Queue.ProjectID queue +:+ "/locations/"
            +:+ Queue.Region queue +:+ "/queues/" +:+ Queue.Name queue
            +:+ "/tasks/" +:+ JsonPostTask.Name task) ∧
  (∀ task w tn,
     GetTask.Name task ≠ "" →
     (CreateGetTask s queue task ops w).1 = (tn, None) →
     tn = "projects/" +:+ Queue.ProjectID queue +:+ "/locations/"
            +:+ Queue.Region queue +:+ "/queues/" +:+ Queue.Name queue
            +:+ "/tasks/" +:+ GetTask.Name task).
Proof.
  intros Hkeep. split_and!.
  - intros taskName req t d w task Hne Hc. by eapply CreateTask_named.
  - intros task w tn Hne.
    destruct (json.Marshal (JsonPostTask.Body task)) as [body|err] eqn:Hm.
    + rewrite (CreateJsonPostTask_marshalled _ _ _ _ _ body Hm). cbn zeta. cbn [fst].
      destruct (CreateTask _ _ _ _ _ _ _ _).1 as [got|err] eqn:Hc; [| done].
      intros [= <-]. by eapply CreateTask_named.
    + unfold CreateJsonPostTask. rewrite Hm. done.
  - intros task w tn Hne.
    rewrite CreateGetTask_unfold. cbn zeta. cbn [fst].
    destruct (CreateTask _ _ _ _ _ _ _ _).1 as [got|err] eqn:Hc; [| done].
    intros [= <-]. by eapply CreateTask_named.
Qed.

End TypedCreateMore.

(** ** More on the fan-out *)

Lemma sum_list_insert {A : Type} (h : A → nat) (l : list A) i x y :
  l !! i = Some x →
  (sum_list (h <$> <[i := y]> l) + h x = sum_list (h <$> l) + h y)%nat.
Proof.
  revert i; induction l as [|a l IH]; intros [|i] Hi; try done.
  - injection Hi as ->. cbn. lia.
  - specialize (IH i Hi).
    change (<[S i := y]> (a :: l)) with (a :: <[i := y]> l).
    rewrite !fmap_cons. cbn [sum_list_with]. lia.
Qed.

Lemma sum_list_bounded {A : Type} (h : A → nat) (l : list A) :
  (∀ x, h x ≤ 1)%nat → (sum_list (h <$> l) ≤ length l)%nat.
Proof.
  intros Hh. induction l as [|a l IH]; [done |].
  rewrite fmap_cons. cbn [sum_list_with length]. specialize (Hh a).
  change (id (h a)) with (h a). lia.
Qed.

Section FanOutMore.

Context {W T : Type}.
Variable create : T → @M W (string * option error).
Variable message : string.
Variable task_Name task_RelativeURI : T → string.

Abbreviation step' := (step create message task_Name task_RelativeURI).
Abbreviation run' := (run create message task_Name task_RelativeURI).
Abbreviation createMulti' := (createMulti create message task_Name task_RelativeURI).
Abbreviation appended' := (appended message task_Name task_RelativeURI).

Implicit Types (f : @fanout W T) (g : @goroutine T) (tasks : list T).

(** Every entry of the aggregate was appended for an item whose single-create
    failed, and the slot of that item is as its goroutine left it. *)
Lemma createMulti_entries tasks sched (w : @World W) res m w' e :
  createMulti' tasks sched w = Some ((res, Some m), w') →
  e ∈ MultiError.Errors m →
  ∃ i task tn err wi,
    tasks !! i = Some task ∧
    (create task wi).1 = (tn, Some err) ∧
    res !! i = Some (slot (mkGoroutine i task (Done tn (Some err)))) ∧
    appended' (mkGoroutine i task (Done tn (Some err))) = [e].
Proof.
  intros (f & (Hlen & Hres & Hrt & Hagg) & Hdone & -> & Hm & ->)%createMulti_final He.
  assert (m = merr f) as ->.
  { unfold MultiError.ErrorOrNil in Hm.
    destruct (MultiError.Errors (merr f)); congruence. }
  rewrite Hagg in He.
  apply list_elem_of_bind in He as (g & He & Hg).
  assert (is_Done g = true) as Hd.
  { rewrite forallb_forall in Hdone. by apply Hdone, list_elem_of_In. }
  apply list_elem_of_lookup in Hg as [i Hg].
  destruct (Hrt i g Hg) as (Hi & Ht & Hout).
  destruct g as [gi task [|tn err|tn err]]; try discriminate.
  cbn in Hi, Ht, Hout. subst gi.
  destruct err as [err|];
    [| rewrite appended_Done in He; by apply elem_of_nil in He].
  destruct (Hout _ eq_refl) as [wi Hwi].
  exists i, task, tn, err, wi. split_and!; try done.
  - by rewrite Hres, list_lookup_fmap, Hg.
  - rewrite appended_Done in He |- *.
    by apply list_elem_of_singleton in He as ->.
Qed.

(** The requests sent during an execution: at most one per single-create
    that was called, after those sent before. *)
Lemma run_sent sched f f' :
  (∀ task w, ∃ l, sent (create task w).2 = sent w ++ l ∧ (length l ≤ 1)%nat) →
  run' sched f = Some f' →
  ∃ l, sent (world f') = sent (world f) ++ l ∧
       (length l + sum_list (started <$> routines f)
        ≤ sum_list (started <$> routines f'))%nat.
Proof.
  intros Hcreate. revert f; induction sched as [|ev sched IH]; intros f; cbn.
  - intros [= <-]. exists []. rewrite app_nil_r. split; [done | cbn; lia].
  - destruct (step' ev f) as [f1|] eqn:Hstep; [| done]. cbn. intros Hrun.
    destruct (IH _ Hrun) as (l & Hl & Hb).
    destruct ev as [i|i]; cbn in Hstep;
      destruct (routines f !! i) as [[gi task [|tn err|tn err]]|] eqn:Hg;
      try discriminate.
    + destruct (Hcreate task (world f)) as (l1 & Hl1 & Hb1).
      destruct (create task (world f)) as [[tn err] w1].
      injection Hstep as <-. cbn [world routines snd] in *.
      exists (l1 ++ l). rewrite Hl, Hl1, (assoc (++)). split; [done |].
      pose proof (sum_list_insert started _ _ _
                    (mkGoroutine gi task (Returned tn err)) Hg) as Hs.
      cbn [started g_at] in Hs. rewrite length_app. lia.
    + destruct (record_outcome message task_Name task_RelativeURI gi task tn err
                  (results f) (merr f)) as [r m].
      injection Hstep as <-. cbn [world routines] in *.
      exists l. split; [done |].
      pose proof (sum_list_insert started _ _ _
                    (mkGoroutine gi task (Done tn err)) Hg) as Hs.
      cbn [started g_at] in Hs. lia.
Qed.

Lemma run_length sched f f' :
  run' sched f = Some f' → length (routines f') = length (routines f).
Proof.
  revert f; induction sched as [|ev sched IH]; intros f; cbn [run].
  - by intros [= <-].
  - destruct (step' ev f) as [f1|] eqn:Hstep; [| done]. cbn. intros Hrun.
    rewrite (IH _ Hrun). clear IH Hrun.
    destruct ev as [j|j]; cbn in Hstep;
      destruct (routines f !! j) as [[gj task [|tn err|tn err]]|] eqn:Hg;
      try discriminate.
    + destruct (create task (world f)) as [[tn err] w1].
      injection Hstep as <-. cbn [routines]. by rewrite length_insert.
    + destruct (record_outcome message task_Name task_RelativeURI gj task tn err
                  (results f) (merr f)) as [r m].
      injection Hstep as <-. cbn [routines]. by rewrite length_insert.
Qed.

Lemma createMulti_sent tasks sched (w : @World W) out :
  (∀ task w, ∃ l, sent (create task w).2 = sent w ++ l ∧ (length l ≤ 1)%nat) →
  createMulti' tasks sched w = Some out →
  ∃ l, sent out.2 = sent w ++ l ∧ (length l ≤ length tasks)%nat.
Proof.
  intros Hcreate. unfold createMulti.
  destruct (run' sched (start tasks w)) as [f|] eqn:Hrun; [| done]. cbn.
  destruct (forallb is_Done (routines f)); [| done]. intros [= <-]. cbn [snd].
  destruct (run_sent _ _ _ Hcreate Hrun) as (l & Hl & Hb).
  exists l. split; [exact Hl |].
  pose proof (sum_list_bounded started (routines f)) as Hs.
  rewrite (run_length _ _ _ Hrun) in Hs. cbn [start routines] in Hs.
  rewrite length_imap in Hs.
  specialize (Hs ltac:(intros [? ? []]; cbn; lia)). lia.
Qed.

(** How often a schedule calls the single-create of goroutine [i]. *)
Lemma run_calls sched f f' i :
  run' sched f = Some f' →
  (calls_of i sched + from_option started 0 (routines f !! i)
   = from_option started 0 (routines f' !! i))%nat ∧
  length (routines f') = length (routines f).
Proof.
  revert f; induction sched as [|ev sched IH]; intros f; cbn [run calls_of].
  - by intros [= <-].
  - destruct (step' ev f) as [f1|] eqn:Hstep; [| done]. cbn. intros Hrun.
    destruct (IH _ Hrun) as [Hc Hlen]. rewrite <- Hc, Hlen. clear IH Hc Hlen Hrun.
    destruct ev as [j|j]; cbn in Hstep;
      destruct (routines f !! j) as [[gj task [|tn err|tn err]]|] eqn:Hg;
      try discriminate.
    + destruct (create task (world f)) as [[tn err] w1].
      injection Hstep as <-. cbn [routines]. rewrite length_insert.
      split; [| done]. destruct (Nat.eqb_spec i j) as [->|Hne].
      * rewrite list_lookup_insert_eq by (by eapply lookup_lt_Some).
        rewrite Hg. cbn. lia.
      * rewrite list_lookup_insert_ne by done. lia.
    + destruct (record_outcome message task_Name task_RelativeURI gj task tn err
                  (results f) (merr f)) as [r m].
      injection Hstep as <-. cbn [routines]. rewrite length_insert.
      split; [| done]. destruct (decide (j = i)) as [->|Hne].
      * rewrite list_lookup_insert_eq by (by eapply lookup_lt_Some).
        rewrite Hg. cbn. lia.
      * rewrite list_lookup_insert_ne by done. lia.
Qed.

Lemma createMulti_calls tasks sched (w : @World W) out i :
  createMulti' tasks sched w = Some out →
  calls_of i sched = (if bool_decide (i < length tasks)%nat then 1 else 0)%nat.
Proof.
  unfold createMulti.
  destruct (run' sched (start tasks w)) as [f|] eqn:Hrun; [| done]. cbn.
  destruct (forallb is_Done (routines f)) eqn:Hd; [| done]. intros _.
  destruct (run_calls _ _ _ i Hrun) as [Hc Hlen].
  cbn [start routines] in Hc, Hlen. rewrite length_imap in Hlen.
  rewrite list_lookup_imap in Hc.
  case_bool_decide as Hi.
  - destruct (lookup_lt_is_Some_2 tasks i Hi) as [task Ht].
    rewrite Ht in Hc. cbn in Hc.
    destruct (lookup_lt_is_Some_2 (routines f) i) as [g Hg]; [lia |].
    rewrite Hg in Hc. cbn in Hc.
    assert (is_Done g = true) as Hdg.
    { rewrite forallb_forall in Hd. apply Hd, list_elem_of_In.
      by eapply list_elem_of_lookup_2. }
    destruct g as [gi t' [|tn err|tn err]]; try discriminate. cbn in Hc. lia.
  - rewrite (lookup_ge_None_2 tasks i) in Hc by lia.
    rewrite (lookup_ge_None_2 (routines f) i) in Hc by lia. cbn in Hc. lia.
Qed.

(** The codes of the entries, for a single-create that returns the empty
    string beside an error and never fails as AlreadyExists when [ignoring]
    holds. *)
Lemma createMulti_entry_codes (ignoring : Prop) tasks sched (w : @World W)
    res m w' e :
  (∀ task w tn e w', create task w = ((tn, Some e), w') → tn = "") →
  (∀ task w tn e,
     (create task w).1 = (tn, Some e) → classified_AlreadyExists e → ¬ ignoring) →
  createMulti' tasks sched w = Some ((res, Some m), w') →
  e ∈ MultiError.Errors m →
  (Err.Code e = AlreadyExists ∨ Err.Code e = CreateMultiTaskFailure) ∧
  (ignoring → Err.Code e = CreateMultiTaskFailure) ∧
  ∃ i, (i < length tasks)%nat ∧
       Err.KV e !! "index" = Some (AnyInt (Z.of_nat i)) ∧
       res !! i = Some "".
Proof.
  intros Hfailed Hclass Hrun He.
  destruct (createMulti_entries _ _ _ _ _ _ _ Hrun He)
    as (i & task & tn & err & wi & Ht & Hc & Hslot & Happ).
  assert (tn = "") as ->.
  { destruct (create task wi) as [[tn' err'] w1] eqn:Hcr. cbn in Hc.
    injection Hc as -> ->. by eapply Hfailed. }
  rewrite appended_Done in Happ. unfold slot in Hslot; cbn [g_at] in Hslot.
  destruct (xerrors.As err) as [a|] eqn:Has;
    [destruct (ErrCode_eqb (Err.Code a) ErrAlreadyExists_Code) eqn:Hcode |];
    injection Happ as <-.
  - apply ErrCode_eqb_eq in Hcode. split_and!.
    + by left.
    + intros Hi. destruct (Hclass task wi "" err Hc); [by exists a | done].
    + exists i. split_and!; [by eapply lookup_lt_Some | apply lookup_insert_eq | done].
  - split_and!; [by right | done |].
    exists i. split_and!; [by eapply lookup_lt_Some | done | done].
  - split_and!; [by right | done |].
    exists i. split_and!; [by eapply lookup_lt_Some | done | done].
Qed.

(** The context of the AlreadyExists entries, for a single-create whose
    AlreadyExists errors map taskName to [name_of task]. *)
Lemma createMulti_duplicate_entries (name_of : T → string) tasks sched
    (w : @World W) res m w' e :
  (∀ task w tn e a,
     (create task w).1 = (tn, Some e) → xerrors.As e = Some a →
     Err.Code a = AlreadyExists →
     Err.KV a = {[ "taskName" := AnyString (name_of task) ]}) →
  createMulti' tasks sched w = Some ((res, Some m), w') →
  e ∈ MultiError.Errors m →
  Err.Code e = AlreadyExists →
  ∃ i task,
    tasks !! i = Some task ∧ res !! i = Some "" ∧
    Err.KV e = <[ "index" := AnyInt (Z.of_nat i) ]>
                 {[ "taskName" := AnyString (name_of task) ]}.
Proof.
  intros Hname Hrun He Hcode.
  destruct (createMulti_entries _ _ _ _ _ _ _ Hrun He)
    as (i & task & tn & err & wi & Ht & Hc & Hslot & Happ).
  rewrite appended_Done in Happ. unfold slot in Hslot; cbn [g_at] in Hslot.
  destruct (xerrors.As err) as [a|] eqn:Has;
    [destruct (ErrCode_eqb (Err.Code a) ErrAlreadyExists_Code) eqn:Ha |];
    injection Happ as <-; try discriminate.
  apply ErrCode_eqb_eq in Ha.
  exists i, task. split_and!; [done | done |].
  unfold Err.set_KV; cbn [Err.KV]. by rewrite (Hname task wi tn err a Hc Has Ha).
Qed.

(** When every single-create of the batch succeeds with a name, so does the
    multi-create. *)
Lemma createMulti_all_succeed tasks sched (w : @World W) res agg w' :
  (∀ task wi tn err,
     task ∈ tasks → (create task wi).1 = (tn, err) → err = None ∧ tn ≠ "") →
  createMulti' tasks sched w = Some ((res, agg), w') →
  agg = None ∧ length res = length tasks ∧ ∀ tn, tn ∈ res → tn ≠ "".
Proof.
  intros Hok (outcomes & Hlo & Hlr & Htie & Hslot & Hnil & _)%createMulti_spec.
  assert (Hall : ∀ i o, outcomes !! i = Some o →
            ∃ task, tasks !! i = Some task ∧ o.2 = None ∧ o.1 ≠ "").
  { intros i [tn err] Ho.
    destruct (lookup_lt_is_Some_2 tasks i) as [task Ht].
    { rewrite <- Hlo. by eapply lookup_lt_Some. }
    destruct (Htie i task _ Ht Ho) as [wi Hc].
    destruct (Hok task wi tn err) as [-> Hne]; [by eapply list_elem_of_lookup_2 | done |].
    by exists task. }
  split_and!; [| done |].
  - apply Hnil. intros o [i Ho]%list_elem_of_lookup.
    by destruct (Hall i o Ho) as (_ & _ & ? & _).
  - intros tn [i Hi]%list_elem_of_lookup.
    destruct (lookup_lt_is_Some_2 outcomes i) as [[tn' err] Ho].
    { rewrite Hlo, <- Hlr. by eapply lookup_lt_Some. }
    destruct (Hall i _ Ho) as (task & Ht & Herr & Hne). cbn in Herr, Hne. subst err.
    rewrite (Hslot i task tn' None Ht Ho) in Hi. cbn in Hi. congruence.
Qed.

End FanOutMore.

(** ** More on the two multi-creates *)

Section MultiMore.

Context {W : Type}.
Implicit Types (s : @Service W) (w : @World W) (queue : Queue.t).

(** With a provider that accepts every request and names its tasks, a
    creation whose scheduled time can be sent succeeds with a name. *)
Lemma CreateTask_accepted s queue taskName req t d ops w :
  names_created (taskClient s) → always_accepts (taskClient s) → sendable t →
  ∃ task, (CreateTask s queue taskName req t d ops w).1 = inl task ∧
          Task.Name task ≠ "".
Proof.
  intros Hnames Hacc Hsend.
  destruct (CreateTask_cases s queue taskName req t d ops w)
    as [(err & Hz & Hts & _) | (r & _ & _ & _ & _ & _ & _ & ->)].
  - destruct Hsend as [? | [ts ?]]; congruence.
  - destruct (Hacc r (server w)) as (task & srv' & Hc). rewrite Hc. cbn [fst].
    exists task. split; [done |]. by eapply Hnames.
Qed.

Lemma CreateJsonPostTask_accepted s queue ops task w tn err :
  names_created (taskClient s) → always_accepts (taskClient s) →
  is_Some (match json.Marshal (JsonPostTask.Body task) with
           | inl body => Some body
           | inr _ => None
           end) →
  sendable (JsonPostTask.ScheduledTime task) →
  (CreateJsonPostTask s queue task ops w).1 = (tn, err) → err = None ∧ tn ≠ "".
Proof.
  intros Hnames Hacc Hbody Hsend.
  destruct (json.Marshal (JsonPostTask.Body task)) as [body|e] eqn:Hm;
    [| by destruct Hbody].
  rewrite (CreateJsonPostTask_marshalled _ _ _ _ _ body Hm). cbn zeta. cbn [fst].
  match goal with |- context [CreateTask ?s ?q ?n ?r ?t ?d ?o ?w] =>
    destruct (CreateTask_accepted s q n r t d o w Hnames Hacc Hsend)
      as (got & -> & Hne)
  end.
  by intros [= <- <-].
Qed.

Lemma CreateGetTask_accepted s queue ops task w tn err :
  names_created (taskClient s) → always_accepts (taskClient s) →
  sendable (GetTask.ScheduledTime task) →
  (CreateGetTask s queue task ops w).1 = (tn, err) → err = None ∧ tn ≠ "".
Proof.
  intros Hnames Hacc Hsend.
  rewrite CreateGetTask_unfold. cbn zeta. cbn [fst].
  match goal with |- context [CreateTask ?s ?q ?n ?r ?t ?d ?o ?w] =>
    destruct (CreateTask_accepted s q n r t d o w Hnames Hacc Hsend)
      as (got & -> & Hne)
  end.
  by intros [= <- <-].
Qed.

(** X14: every entry of the aggregate of a multi-create has the code
    AlreadyExists or CreateMultiTaskFailure, an InvalidArgument failure of an
    item being reported as CreateMultiTaskFailure; with the ignore option
    every entry is a CreateMultiTaskFailure.  Each entry holds under index
    the position of an item of the batch, whose slot is empty. *)
Theorem multi_create_entry_codes s queue ops :
  (∀ tasks sched w res m w' e,
     CreateJsonPostTaskMulti s queue tasks ops sched w = Some ((res, Some m), w') →
     e ∈ MultiError.Errors m →
     (Err.Code e = AlreadyExists ∨ Err.Code e = CreateMultiTaskFailure) ∧
     (WithIgnoreAlreadyExists ∈ ops → Err.Code e = CreateMultiTaskFailure) ∧
     ∃ i, (i < length tasks)%nat ∧
          Err.KV e !! "index" = Some (AnyInt (Z.of_nat i)) ∧
          res !! i = Some "") ∧
  (∀ tasks sched w res m w' e,
     CreateGetTaskMulti s queue tasks ops sched w = Some ((res, Some m), w') →
     e ∈ MultiError.Errors m →
     (Err.Code e = AlreadyExists ∨ Err.Code e = CreateMultiTaskFailure) ∧
     (WithIgnoreAlreadyExists ∈ ops → Err.Code e = CreateMultiTaskFailure) ∧
     ∃ i, (i < length tasks)%nat ∧
          Err.KV e !! "index" = Some (AnyInt (Z.of_nat i)) ∧
          res !! i = Some "").
Proof.
  split; intros tasks sched w res m w' e Hrun He.
  - eapply (createMulti_entry_codes _ _ _ _ (WithIgnoreAlreadyExists ∈ ops));
      [| | exact Hrun | exact He].
    + intros task w1 tn e1 w2. apply CreateJsonPostTask_failed.
    + intros task w1 tn e1 Hc Hcl.
      by apply (CreateJsonPostTask_classified _ _ _ _ _ _ _ Hc) in Hcl as [Hno _].
  - eapply (createMulti_entry_codes _ _ _ _ (WithIgnoreAlreadyExists ∈ ops));
      [| | exact Hrun | exact He].
    + intros task w1 tn e1 w2. apply CreateGetTask_failed.
    + intros task w1 tn e1 Hc Hcl.
      by apply (CreateGetTask_classified _ _ _ _ _ _ _ Hc) in Hcl as [Hno _].
Qed.

(** X15: every AlreadyExists entry of the aggregate of a multi-create
    belongs to an item of the batch whose slot is empty, and its context is
    the position of that item under index and, under taskName, the name that
    was sent for it: projects/P/locations/R/queues/N/tasks/T for a task
    named T. *)
Theorem multi_create_duplicate_context s queue ops :
  (∀ tasks sched w res m w' e,
     CreateJsonPostTaskMulti s queue tasks ops sched w = Some ((res, Some m), w') →
     e ∈ MultiError.Errors m →
     Err.Code e = AlreadyExists →
     ∃ i task,
       tasks !! i = Some task ∧ res !! i = Some "" ∧
       Err.KV e
       = <[ "index" := AnyInt (Z.of_nat i) ]>
           {[ "taskName" :=
                AnyString
                  (if bool_decide (JsonPostTask.Name task = "") then ""
                   else "projects/" +:+ Queue.ProjectID queue +:+ "/locations/"
                          +:+ Queue.Region queue +:+ "/queues/"
                          +:+ Queue.Name queue +:+ "/tasks/"
                          +:+ JsonPostTask.Name task) ]}) ∧
  (∀ tasks sched w res m w' e,
     CreateGetTaskMulti s queue tasks ops sched w = Some ((res, Some m), w') →
     e ∈ MultiError.Errors m →
     Err.Code e = AlreadyExists →
     ∃ i task,
       tasks !! i = Some task ∧ res !! i = Some "" ∧
       Err.KV e
       = <[ "index" := AnyInt (Z.of_nat i) ]>
           {[ "taskName" :=
                AnyString
                  (if bool_decide (GetTask.Name task = "") then ""
                   else "projects/" +:+ Queue.ProjectID queue +:+ "/locations/"
                          +:+ Queue.Region queue +:+ "/queues/"
                          +:+ Queue.Name queue +:+ "/tasks/"
                          +:+ GetTask.Name task) ]}).
Proof.
  split; intros tasks sched w res m w' e Hrun He Hcode.
  - eapply (createMulti_duplicate_entries _ _ _ _ _); [| exact Hrun | exact He | exact Hcode].
    intros task w1 tn e1 a Hc Has Ha.
    destruct (proj2 (CreateJsonPostTask_classified _ _ _ _ _ _ _ Hc) a Has Ha)
      as (r & Hone & ->).
    rewrite (proj2 (CreateJsonPostTask_sent s queue ops task w1) r)
      by (rewrite Hone; by left).
    by rewrite task_name_format.
  - eapply (createMulti_duplicate_entries _ _ _ _ _); [| exact Hrun | exact He | exact Hcode].
    intros task w1 tn e1 a Hc Has Ha.
    destruct (proj2 (CreateGetTask_classified _ _ _ _ _ _ _ Hc) a Has Ha)
      as (r & Hone & ->).
    rewrite (proj2 (CreateGetTask_sent s queue ops task w1) r)
      by (rewrite Hone; by left).
    by rewrite task_name_format.
Qed.

(** X16: a multi-create sends at most one request per item of the batch,
    after the requests sent before it, which it keeps. *)
Theorem multi_create_requests s queue ops :
  (∀ tasks sched w out,
     CreateJsonPostTaskMulti s queue tasks ops sched w = Some out →
     ∃ l, sent out.2 = sent w ++ l ∧ (length l ≤ length tasks)%nat) ∧
  (∀ tasks sched w out,
     CreateGetTaskMulti s queue tasks ops sched w = Some out →
     ∃ l, sent out.2 = sent w ++ l ∧ (length l ≤ length tasks)%nat).
Proof.
  split; intros tasks sched w out Hrun.
  - eapply createMulti_sent; [| exact Hrun].
    intros task w1. apply CreateJsonPostTask_sent.
  - eapply createMulti_sent; [| exact Hrun].
    intros task w1. apply CreateGetTask_sent.
Qed.

(** X17: an execution of a multi-create up to its return takes two steps per
    item and calls the single-create of every item exactly once, whatever
    the other items do: no item is skipped after a failure and none is
    tried again. *)
Theorem multi_create_calls_once s queue ops :
  (∀ tasks sched w out,
     CreateJsonPostTaskMulti s queue tasks ops sched w = Some out →
     length sched = (2 * length tasks)%nat ∧
     ∀ i, calls_of i sched
          = (if bool_decide (i < length tasks)%nat then 1 else 0)%nat) ∧
  (∀ tasks sched w out,
     CreateGetTaskMulti s queue tasks ops sched w = Some out →
     length sched = (2 * length tasks)%nat ∧
     ∀ i, calls_of i sched
          = (if bool_decide (i < length tasks)%nat then 1 else 0)%nat).
Proof.
  split; intros tasks sched w out Hrun.
  - split; [exact (createMulti_steps _ _ _ _ _ _ _ _ Hrun) |].
    intros i. exact (createMulti_calls _ _ _ _ _ _ _ _ i Hrun).
  - split; [exact (createMulti_steps _ _ _ _ _ _ _ _ Hrun) |].
    intros i. exact (createMulti_calls _ _ _ _ _ _ _ _ i Hrun).
Qed.

(** X18: with a provider that accepts every request and names its tasks, a
    multi-create over tasks whose bodies serialize and whose scheduled times
    can be sent returns a nil aggregate and a name in every slot, as the
    tests of the package expect. *)
Theorem multi_create_all_succeed s queue ops :
  names_created (taskClient s) → always_accepts (taskClient s) →
  (∀ tasks sched w res agg w',
     (∀ task, task ∈ tasks →
        is_Some (match json.Marshal (JsonPostTask.Body task) with
                 | inl body => Some body
                 | inr _ => None
                 end) ∧
        sendable (JsonPostTask.ScheduledTime task)) →
     CreateJsonPostTaskMulti s queue tasks ops sched w = Some ((res, agg), w') →
     agg = None ∧ length res = length tasks ∧ ∀ tn, tn ∈ res → tn ≠ "") ∧
  (∀ tasks sched w res agg w',
     (∀ task, task ∈ tasks → sendable (GetTask.ScheduledTime task)) →
     CreateGetTaskMulti s queue tasks ops sched w = Some ((res, agg), w') →
     agg = None ∧ length res = length tasks ∧ ∀ tn, tn ∈ res → tn ≠ "").
Proof.
  intros Hnames Hacc. split; intros tasks sched w res agg w' Hok Hrun.
  - eapply createMulti_all_succeed; [| exact Hrun].
    intros task wi tn err Hin. destruct (Hok task Hin) as [Hbody Hsend].
    by apply CreateJsonPostTask_accepted.
  - eapply createMulti_all_succeed; [| exact Hrun].
    intros task wi tn err Hin. by apply CreateGetTask_accepted, Hok.
Qed.

End MultiMore.

(** ** Further concrete calls *)

Lemma open_queue_names : names_created open_queue.
Proof.
  intros taskReq n task n'. unfold open_queue.
  case_bool_decide as Hn; intros [= <- _]; [| done].
  cbn. destruct (CreateTaskRequest.Parent taskReq); discriminate.
Qed.

Lemma open_queue_accepts : always_accepts open_queue.
Proof.
  intros taskReq n. unfold open_queue. case_bool_decide; eauto.
Qed.

(** The request sent for an unnamed task scheduled for the first second of
    2020. *)
Lemma CreateTask_request_fields_witness :
  scheduled_request
    ∈ submitted (CreateTask ci_service ci_queue "" ping_request new_year_2020 0%Z [])
        fresh ∧
  CreateTaskRequest.Parent scheduled_request = Queue.Parent ci_queue ∧
  Task.MessageType (CreateTaskRequest.Task scheduled_request)
  = Some (Task_HttpRequest ping_request) ∧
  (time.IsZero new_year_2020 = false →
   ∃ ts, ptypes.TimestampProto new_year_2020 = inl ts ∧
         Task.ScheduleTime (CreateTaskRequest.Task scheduled_request) = Some ts).
Proof.
  split; [by left |].
  apply (CreateTask_request_fields ci_service ci_queue "" ping_request
           new_year_2020 0%Z [] fresh scheduled_request).
  by left.
Defined.

(** A provider out of service: its error comes back as it is, the ignore
    option notwithstanding. *)
Lemma CreateTask_passes_answer_witness :
  submitted (CreateTask (mkService out_of_service ci_email) ci_queue "dup"
               ping_request time.zero 0%Z [WithIgnoreAlreadyExists])
    (mkWorld tt []) = [dup_request] ∧
  (CreateTask (mkService out_of_service ci_email) ci_queue "dup"
     ping_request time.zero 0%Z [WithIgnoreAlreadyExists] (mkWorld tt [])).1
  = inr (Foreign (StatusError codes.Unavailable "The service is currently unavailable")).
Proof.
  split; [reflexivity |].
  apply (proj2 (CreateTask_passes_answer (mkService out_of_service ci_email)
                  ci_queue "dup" ping_request time.zero 0%Z
                  [WithIgnoreAlreadyExists] (mkWorld tt []) dup_request eq_refl));
    [reflexivity | discriminate].
Defined.

(** The error of a duplicate is of the second kind. *)
Lemma CreateTask_error_kinds_witness :
  ∃ err,
    (CreateTask ci_service ci_queue "dup" ping_request time.zero 0%Z []
       holding_dup).1 = inr err ∧
    ∃ e taskReq msg,
      err = AppError e ∧ Err.Code e = AlreadyExists ∧
      submitted (CreateTask ci_service ci_queue "dup" ping_request time.zero 0%Z [])
        holding_dup = [taskReq] ∧
      (taskClient ci_service taskReq (server holding_dup)).1
      = inr (StatusError codes.AlreadyExists msg).
Proof.
  eexists. split; [reflexivity |].
  destruct (CreateTask_error_kinds ci_service ci_queue "dup" ping_request
              time.zero 0%Z [] holding_dup _ eq_refl)
    as [(e & cause & _ & _ & Hz & _)
       | [(e & r & msg & He & Hc & Hs & Ha & _)
         | (cause & r & Hf & _)]].
  - discriminate Hz.
  - exists e, r, msg. by split_and!.
  - discriminate Hf.
Defined.

(** The name sent for the task named dup lies under the parent path. *)
Lemma CreateTask_name_under_parent_witness :
  dup_request
    ∈ submitted (CreateTask ci_service ci_queue "dup" ping_request time.zero 0%Z [])
        fresh ∧
  "dup" ≠ "" ∧
  Task.Name (CreateTaskRequest.Task dup_request)
  = CreateTaskRequest.Parent dup_request +:+ "/tasks/" +:+ "dup".
Proof.
  split; [by left |]. split; [done |].
  apply (CreateTask_name_under_parent ci_service ci_queue "dup" ping_request
           time.zero 0%Z [] fresh dup_request); [by left | done].
Defined.

(** The queue of the tests is the only one with its parent path. *)
Lemma Parent_injective_witness :
  no_slash (Queue.ProjectID ci_queue) = true ∧
  no_slash (Queue.Region ci_queue) = true ∧
  Queue.Parent (Queue.mk "sinmetal-ci" "asia-northeast1" "gcpboxtest")
  = Queue.Parent ci_queue ∧
  Queue.mk "sinmetal-ci" "asia-northeast1" "gcpboxtest" = ci_queue.
Proof.
  split; [reflexivity |]. split; [reflexivity |]. split; [reflexivity |].
  apply (Parent_injective (Queue.mk "sinmetal-ci" "asia-northeast1" "gcpboxtest")
           ci_queue); reflexivity.
Defined.

(** The task named dup, sent to two providers, is the same task. *)
Lemma task_name_identifies_witness :
  no_slash (Queue.ProjectID ci_queue) = true ∧
  no_slash (Queue.Region ci_queue) = true ∧
  no_slash (Queue.Name ci_queue) = true ∧
  "dup" ≠ "" ∧
  dup_request
    ∈ submitted (CreateTask ci_service ci_queue "dup" ping_request time.zero 0%Z [])
        fresh ∧
  dup_request
    ∈ submitted (CreateTask (mkService always_exists ci_email) ci_queue "dup"
                   ping_request time.zero 0%Z []) (mkWorld tt []) ∧
  ci_queue = ci_queue ∧ "dup" = "dup".
Proof.
  do 3 (split; [reflexivity |]). split; [done |].
  split; [by left |]. split; [by left |].
  apply (task_name_identifies ci_service (mkService always_exists ci_email)
           ci_queue ci_queue "dup" "dup" ping_request ping_request
           time.zero time.zero 0%Z 0%Z [] [] fresh (mkWorld tt [])
           dup_request dup_request); try reflexivity; try done; by left.
Defined.

(** A deadline of thirty minutes is sent as 1800 seconds. *)
Lemma CreateTask_deadline_exact_witness :
  half_hour_request
    ∈ submitted (CreateTask ci_service ci_queue "" ping_request time.zero
                   (30 * time.Minute)%Z []) fresh ∧
  (30 * time.Minute)%Z ≠ 0%Z ∧
  ∃ dp,
    Task.DispatchDeadline (CreateTaskRequest.Task half_hour_request) = Some dp ∧
    (ptypes.dSeconds dp * 1000000000 + ptypes.dNanos dp = 30 * time.Minute)%Z ∧
    (Z.abs (ptypes.dNanos dp) < 1000000000)%Z ∧
    (0 ≤ 30 * time.Minute → 0 ≤ ptypes.dSeconds dp ∧ 0 ≤ ptypes.dNanos dp)%Z ∧
    (30 * time.Minute ≤ 0 → ptypes.dSeconds dp ≤ 0 ∧ ptypes.dNanos dp ≤ 0)%Z.
Proof.
  split; [by left |]. split; [done |].
  apply (CreateTask_deadline_exact ci_service ci_queue "" ping_request time.zero
           (30 * time.Minute)%Z [] fresh half_hour_request); [by left | done].
Defined.

(** A body that is a channel stops the creation before any call. *)
Lemma CreateJsonPostTask_marshal_failure_witness :
  json.Marshal (JsonPostTask.Body unencodable_task)
  = inr (PlainError "json: unsupported type: chan int") ∧
  ∃ e, CreateJsonPostTask ci_service ci_queue unencodable_task [] fresh
       = (("", Some e), fresh) ∧
       e = WrapError "failed json.Marshal(). body=%+v : %w"
             [json.show (JsonPostTask.Body unencodable_task)]
             (Foreign (PlainError "json: unsupported type: chan int")) ∧
       xerrors.As e = None ∧
       ¬ classified_AlreadyExists e ∧
       submitted (CreateJsonPostTask ci_service ci_queue unencodable_task []) fresh = [].
Proof.
  split; [reflexivity |].
  apply (CreateJsonPostTask_marshal_failure ci_service ci_queue unencodable_task
           [] fresh). reflexivity.
Defined.

(** The batch of the tests, its goroutines run in turn, on a provider
    without de-duplication. *)
Lemma multi_create_all_succeed_witness :
  names_created (taskClient open_service) ∧
  always_accepts (taskClient open_service) ∧
  (∀ task, task ∈ ten_hellos →
     is_Some (match json.Marshal (JsonPostTask.Body task) with
              | inl body => Some body
              | inr _ => None
              end) ∧
     sendable (JsonPostTask.ScheduledTime task)) ∧
  ∃ res agg w',
    CreateJsonPostTaskMulti open_service ci_queue ten_hellos [] (in_turn 10) opened
    = Some ((res, agg), w') ∧
    agg = None ∧ length res = length ten_hellos ∧ ∀ tn, tn ∈ res → tn ≠ "".
Proof.
  assert (Hten : ∀ task, task ∈ ten_hellos →
            is_Some (match json.Marshal (JsonPostTask.Body task) with
                     | inl body => Some body
                     | inr _ => None
                     end) ∧
            sendable (JsonPostTask.ScheduledTime task)).
  { intros task [-> _]%elem_of_replicate. split; [by eexists | by left]. }
  split; [exact open_queue_names |]. split; [exact open_queue_accepts |].
  split; [exact Hten |].
  eexists _, _, _. split; [vm_compute; reflexivity |].
  eapply (proj1 (multi_create_all_succeed open_service ci_queue []
                   open_queue_names open_queue_accepts)
            ten_hellos (in_turn 10) opened); [exact Hten |].
  vm_compute; reflexivity.
Defined.

(** The timestamp sent for the first second of 2020. *)
Lemma CreateTask_schedule_valid_witness :
  scheduled_request
    ∈ submitted (CreateTask ci_service ci_queue "" ping_request new_year_2020 0%Z [])
        fresh ∧
  Task.ScheduleTime (CreateTaskRequest.Task scheduled_request)
  = Some (ptypes.mkTimestamp 1577836800 0) ∧
  (ptypes.minValidSeconds ≤ 1577836800 < ptypes.maxValidSeconds)%Z ∧
  (0 ≤ 0 < 1000000000)%Z ∧
  time.IsZero new_year_2020 = false ∧
  1577836800%Z = time.Unix new_year_2020.
Proof.
  split; [by left |]. split; [reflexivity |].
  apply (CreateTask_schedule_valid ci_service ci_queue "" ping_request
           new_year_2020 0%Z [] fresh scheduled_request
           (ptypes.mkTimestamp 1577836800 0)); [by left | reflexivity].
Defined.

Lemma memory_queue_keeps_names : keeps_names memory_queue.
Proof.
  intros taskReq held task held' Hc Hne. unfold memory_queue in Hc.
  rewrite bool_decide_eq_false_2 in Hc by done.
  destruct (bool_decide (Task.Name (CreateTaskRequest.Task taskReq) ∈ held));
    [discriminate | by injection Hc as <- _].
Qed.

(** The task named dup, created and then created again under the ignore
    option, has the same identifier both times. *)
Lemma created_name_of_named_task_witness :
  keeps_names (taskClient ci_service) ∧
  JsonPostTask.Name (hello_task "dup") ≠ "" ∧
  (CreateJsonPostTask ci_service ci_queue (hello_task "dup")
     [WithIgnoreAlreadyExists] fresh).1
  = ("projects/sinmetal-ci/locations/asia-northeast1/queues/gcpboxtest/tasks/dup",
     None) ∧
  (CreateJsonPostTask ci_service ci_queue (hello_task "dup")
     [WithIgnoreAlreadyExists] holding_dup).1
  = ("projects/sinmetal-ci/locations/asia-northeast1/queues/gcpboxtest/tasks/dup",
     None) ∧
  "projects/sinmetal-ci/locations/asia-northeast1/queues/gcpboxtest/tasks/dup"
  = "projects/" +:+ Queue.ProjectID ci_queue +:+ "/locations/"
      +:+ Queue.Region ci_queue +:+ "/queues/" +:+ Queue.Name ci_queue
      +:+ "/tasks/" +:+ JsonPostTask.Name (hello_task "dup").
Proof.
  split; [exact memory_queue_keeps_names |]. split; [done |].
  split; [reflexivity |]. split; [reflexivity |].
  apply (proj1 (proj2 (created_name_of_named_task ci_service ci_queue
                          [WithIgnoreAlreadyExists] memory_queue_keeps_names))
           (hello_task "dup") holding_dup); [done | reflexivity].
Defined.
